(** * oNotes: the note store, the password gate and the wrapping editor

    A shallow embedding of [notes.py].  Three classes carry the program's
    logic and each one gets a module here:

    - [PasswordManager]: SHA-256 credential check against the auth file;
    - [NoteData]: the in-memory folder/note document and its JSON file;
    - [NoteEditor]: the text area that wraps the cursor line at 80 columns.

    Python values are modelled as follows.  An [int] is a [Z].  A [str] that
    is only stored and compared (titles, folder names, timestamps, hashes) is
    a [string].  The editor's text is indexed, sliced and measured, so there a
    [str] is the list of its code points.  A mutable object is threaded
    through each method as an explicit state, and the method returns its
    result together with the new state. *)

From stdpp Require Import base numbers list strings.

Local Open Scope Z_scope.
Local Open Scope string_scope.

(** ** Python helpers *)

(** [a or b] on strings: the empty string is falsy. *)
Definition py_or (a b : string) : string :=
  if bool_decide (a = "") then b else a.

(** [l.remove(x)]: drops the first occurrence of [x].  Python raises
    [ValueError] when there is none; the only call site checks membership
    first, so that branch is never taken and the list is returned as is. *)
Fixpoint py_remove (x : string) (l : list string) : list string :=
  match l with
  | [] => []
  | y :: l' => if bool_decide (y = x) then l' else y :: py_remove x l'
  end.

(** ** PasswordManager *)

Module PasswordManager.

(** The JSON object kept in [AUTH_FILE].  Both keys may be missing:
    [skip_password] writes no ["password_hash"]. *)
Record AuthDoc := mkAuthDoc {
  enabled : option bool;
  password_hash : option string
}.

(** The state of [AUTH_FILE]: [None] when the file does not exist. *)
Definition AuthFile := option AuthDoc.

(** [data.get("enabled", False)] *)
Definition get_enabled (data : AuthDoc) : bool :=
  default false (enabled data).

Section Hashing.

(** [hashlib.sha256(password.encode()).hexdigest()] is library code;
    the gate only ever compares two of its results. *)
Variable sha256_hexdigest : string -> string.

Definition hash_password (password : string) : string :=
  sha256_hexdigest password.

Definition password_exists (auth_file : AuthFile) : bool :=
  bool_decide (is_Some auth_file).

Definition set_password (password : string) (auth_file : AuthFile) : AuthFile :=
  Some {| password_hash := Some (hash_password password);
          enabled := Some true |}.

Definition skip_password (auth_file : AuthFile) : AuthFile :=
  Some {| password_hash := None; enabled := Some false |}.

Definition is_password_enabled (auth_file : AuthFile) : bool :=
  match auth_file with
  | None => false
  | Some data => get_enabled data
  end.

Definition verify_password (password : string) (auth_file : AuthFile) : bool :=
  match auth_file with
  | None => false
  | Some data =>
      if negb (get_enabled data) then true
      else bool_decide (Some (hash_password password) = password_hash data)
  end.

End Hashing.

End PasswordManager.

(** ** NoteData *)

Module NoteData.

Record Note := mkNote {
  id : Z;
  title : string;
  content : string;
  folder : string;
  created : string;
  modified : string
}.

(** [self.data]: the document that is also the content of [NOTES_FILE]. *)
Record Data := mkData {
  folders : list string;
  notes : list Note
}.

(** The object together with the effect it has on the disk: [written]
    lists the documents [save] has dumped to [NOTES_FILE], newest first. *)
Record t := mk {
  data : Data;
  written : list Data
}.

Definition default_data : Data :=
  {| folders := ["All Notes"; "Personal"; "Work"]; notes := [] |}.

(** [load]: the file's document when it exists, the defaults otherwise. *)
Definition load (notes_file : option Data) : Data :=
  match notes_file with
  | Some d => d
  | None => default_data
  end.

(** [__init__] *)
Definition init (notes_file : option Data) : t :=
  {| data := load notes_file; written := [] |}.

Definition save (self : t) : t :=
  {| data := data self; written := data self :: written self |}.

Definition set_notes (ns : list Note) (self : t) : t :=
  {| data := {| folders := folders (data self); notes := ns |};
     written := written self |}.

Definition set_folders (fs : list string) (self : t) : t :=
  {| data := {| folders := fs; notes := notes (data self) |};
     written := written self |}.

(** [now_created] and [now_modified] are the two readings of
    [datetime.now().isoformat()], in the order the dict literal takes
    them. *)
Definition add_note (title content folder : string)
    (now_created now_modified : string) (self : t) : Note * t :=
  let note :=
    {| id := Z.of_nat (length (notes (data self))) + 1;
       title := py_or title "Untitled Note";
       content := content;
       folder := folder;
       created := now_created;
       modified := now_modified |} in
  let self := set_notes (notes (data self) ++ [note])%list self in
  let self := save self in
  (note, self).

(** The three assignments in the body of [update_note]'s loop. *)
Definition overwrite (title content now : string) (note : Note) : Note :=
  {| id := id note;
     title := py_or title "Untitled Note";
     content := content;
     folder := folder note;
     created := created note;
     modified := now |}.

(** The [for] loop of [update_note]: it stops at the first note whose id
    matches, mutates it in place and hands it back; [None] when the loop
    runs off the end. *)
Fixpoint update_loop (note_id : Z) (title content now : string)
    (ns : list Note) : option (Note * list Note) :=
  match ns with
  | [] => None
  | note :: rest =>
      if bool_decide (id note = note_id) then
        let note := overwrite title content now note in
        Some (note, note :: rest)
      else
        match update_loop note_id title content now rest with
        | Some (found, rest) => Some (found, note :: rest)
        | None => None
        end
  end.

Definition update_note (note_id : Z) (title content : string)
    (now : string) (self : t) : option Note * t :=
  match update_loop note_id title content now (notes (data self)) with
  | Some (note, ns) => (Some note, save (set_notes ns self))
  | None => (None, self)
  end.

Definition delete_note (note_id : Z) (self : t) : t :=
  let self :=
    set_notes
      (List.filter (fun n => negb (bool_decide (id n = note_id)))
         (notes (data self)))
      self in
  save self.

Definition get_notes_by_folder (folder_name : string) (self : t) : list Note :=
  if bool_decide (folder_name = "All Notes") then notes (data self)
  else List.filter (fun n => bool_decide (folder n = folder_name))
         (notes (data self)).

Definition add_folder (folder_name : string) (self : t) : bool * t :=
  if negb (bool_decide (folder_name = ""))
     && negb (bool_decide (folder_name ∈ folders (data self))) then
    let self := set_folders (folders (data self) ++ [folder_name])%list self in
    let self := save self in
    (true, self)
  else (false, self).

(** The inner loop of [delete_folder]. *)
Definition move_notes (folder_name : string) (ns : list Note) : list Note :=
  List.map
    (fun note =>
       if bool_decide (folder note = folder_name) then
         {| id := id note;
            title := title note;
            content := content note;
            folder := "Personal";
            created := created note;
            modified := modified note |}
       else note)
    ns.

Definition delete_folder (folder_name : string) (self : t) : bool * t :=
  if bool_decide (folder_name = "All Notes") then (false, self)
  else if bool_decide (folder_name ∈ folders (data self)) then
    let self := set_notes (move_notes folder_name (notes (data self))) self in
    let self := set_folders (py_remove folder_name (folders (data self))) self in
    let self := save self in
    (true, self)
  else (false, self).

(** The mutating calls the shell can make, as data, so that a session is
    a list of them. *)
Inductive Op :=
| AddNote (title content folder now_created now_modified : string)
| UpdateNote (note_id : Z) (title content now : string)
| DeleteNote (note_id : Z)
| AddFolder (folder_name : string)
| DeleteFolder (folder_name : string).

Definition run_op (op : Op) (self : t) : t :=
  match op with
  | AddNote ti c f n1 n2 => (add_note ti c f n1 n2 self).2
  | UpdateNote i ti c n => (update_note i ti c n self).2
  | DeleteNote i => delete_note i self
  | AddFolder f => (add_folder f self).2
  | DeleteFolder f => (delete_folder f self).2
  end.

Definition run (ops : list Op) (self : t) : t :=
  foldl (fun s op => run_op op s) self ops.

End NoteData.

(** ** NoteEditor *)

Module NoteEditor.

(** A character is its Unicode code point; a [str] is the list of them,
    so [len], indexing and slicing count code points as Python does. *)
Abbreviation char := N (only parsing).
Abbreviation str := (list N) (only parsing).

Definition NEWLINE : char := 10%N.
Definition SPACE : char := 32%N.

(** The characters [str.strip], [lstrip] and [rstrip] remove when called
    without an argument (CPython's [Py_UNICODE_ISSPACE]). *)
Definition py_isspace (c : char) : bool :=
  ((9 <=? c) && (c <=? 13)
   || (28 <=? c) && (c <=? 32)
   || (c =? 133) || (c =? 160) || (c =? 5760)
   || (8192 <=? c) && (c <=? 8202)
   || (c =? 8232) || (c =? 8233) || (c =? 8239) || (c =? 8287)
   || (c =? 12288))%N.

Fixpoint lstrip (s : str) : str :=
  match s with
  | [] => []
  | c :: s' => if py_isspace c then lstrip s' else s
  end.

Definition rstrip (s : str) : str := reverse (lstrip (reverse s)).

(** [text.split(sep)] for a one-character separator. *)
Fixpoint split (sep : char) (text : str) : list str :=
  match text with
  | [] => [[]]
  | c :: text' =>
      if (c =? sep)%N then [] :: split sep text'
      else
        match split sep text' with
        | line :: lines => (c :: line) :: lines
        | [] => [[c]]
        end
  end.

(** [sep.join(lines)] *)
Fixpoint join (sep : char) (lines : list str) : str :=
  match lines with
  | [] => []
  | [line] => line
  | line :: lines' => (line ++ sep :: join sep lines')%list
  end.

(** Left-to-right scan remembering the last index at which [c] was seen;
    [i] is the index of the head of [s]. *)
Fixpoint last_index (c : char) (s : str) (i : Z) (seen : Z) : Z :=
  match s with
  | [] => seen
  | x :: s' => last_index c s' (i + 1) (if (x =? c)%N then i else seen)
  end.

(** [s.rfind(c, start, stop)] for non-negative bounds: the highest index
    in [s[start:stop]] holding [c], or [-1]. *)
Definition rfind (s : str) (c : char) (start stop : nat) : Z :=
  last_index c (take (stop - start) (drop start s)) (Z.of_nat start) (-1).

(** [lines.insert(i, x)]: an index past the end appends. *)
Definition py_insert (i : nat) (x : str) (lines : list str) : list str :=
  (take i lines ++ x :: drop i lines)%list.

Definition MAX_LINE_LENGTH : nat := 80.

(** The part of the [TextArea] widget the method touches: the document
    text, the cursor location [(row, column)] and the re-entrancy flag. *)
Record t := mk {
  text : str;
  cursor_location : nat * nat;
  wrapping : bool
}.

Definition set_wrapping (w : bool) (self : t) : t :=
  {| text := text self; cursor_location := cursor_location self;
     wrapping := w |}.

(** *** The document behind the widget

    [TextArea] does not keep the string it is given.  [load_text] builds
    a [Document] from it: the string is cut at every line boundary that
    [str.splitlines] knows, the newline style is detected once, and the
    [text] property hands back the rows joined with that newline. *)

Definition CARRIAGE_RETURN : char := 13%N.

(** The line boundaries of [str.splitlines]: LF, VT, FF, CR, FS, GS, RS,
    NEL, LS and PS. *)
Definition py_linebreak (c : char) : bool :=
  ((10 <=? c) && (c <=? 13)
   || (28 <=? c) && (c <=? 30)
   || (c =? 133) || (c =? 8232) || (c =? 8233))%N.

(** [text.splitlines()]: CR LF counts as one boundary, and a boundary at
    the very end opens no further row. *)
Fixpoint splitlines (text : str) : list str :=
  match text with
  | [] => []
  | c :: text' =>
      if py_linebreak c then
        match text' with
        | c' :: text'' =>
            if (c =? CARRIAGE_RETURN)%N && (c' =? NEWLINE)%N
            then [] :: splitlines text''
            else [] :: splitlines text'
        | [] => [[]]
        end
      else
        match splitlines text' with
        | line :: lines => (c :: line) :: lines
        | [] => [[c]]
        end
  end.

(** ["\r\n" in text] *)
Fixpoint contains_crlf (text : str) : bool :=
  match text with
  | c :: text' =>
      match text' with
      | c' :: _ =>
          (c =? CARRIAGE_RETURN)%N && (c' =? NEWLINE)%N || contains_crlf text'
      | [] => false
      end
  | [] => false
  end.

(** [_detect_newline_style] *)
Definition detect_newline_style (text : str) : str :=
  if contains_crlf text then [CARRIAGE_RETURN; NEWLINE]
  else if existsb (fun c => (c =? NEWLINE)%N) text then [NEWLINE]
  else if existsb (fun c => (c =? CARRIAGE_RETURN)%N) text then [CARRIAGE_RETURN]
  else [NEWLINE].

(** [text.endswith(("\r\n", "\n", "\r"))] *)
Definition ends_with_newline (text : str) : bool :=
  match last text with
  | Some c => ((c =? NEWLINE) || (c =? CARRIAGE_RETURN))%N
  | None => false
  end.

(** [Document.__init__]: the rows, with an empty last row after a final
    newline and for the empty string. *)
Definition document_lines (text : str) : list str :=
  let lines := splitlines text in
  if ends_with_newline text || bool_decide (text = []) then (lines ++ [[]])%list
  else lines.

(** [newline.join(lines)] for a newline of one or two characters. *)
Fixpoint join_with (newline : str) (lines : list str) : str :=
  match lines with
  | [] => []
  | [line] => line
  | line :: lines' => (line ++ newline ++ join_with newline lines')%list
  end.

(** [Document.text] of [Document(text)]. *)
Definition document_text (text : str) : str :=
  join_with (detect_newline_style text) (document_lines text).

(** [TextArea.load_text]: replaces the document and homes the cursor.
    What [self.text] returns afterwards is the text of the new
    document. *)
Definition load_text (new_text : str) (self : t) : t :=
  {| text := document_text new_text; cursor_location := (0%nat, 0%nat);
     wrapping := wrapping self |}.

(** A document in which LF is the only line boundary. *)
Definition lf_only (text : str) : bool :=
  forallb (fun c => negb (py_linebreak c) || (c =? NEWLINE)%N) text.

Definition set_cursor_location (loc : nat * nat) (self : t) : t :=
  {| text := text self; cursor_location := loc; wrapping := wrapping self |}.

(** Lines 272-276: where [current_line] is cut. *)
Definition wrap_point (current_line : str) : Z :=
  let wrap_point := rfind current_line SPACE 0 MAX_LINE_LENGTH in
  if (wrap_point =? -1)%Z then Z.of_nat MAX_LINE_LENGTH else wrap_point.

(** Lines 279-280. *)
Definition first_part (current_line : str) : str :=
  rstrip (take (Z.to_nat (wrap_point current_line)) current_line).

Definition second_part (current_line : str) : str :=
  lstrip (drop (Z.to_nat (wrap_point current_line)) current_line).

(** Line 284. *)
Definition spaces_stripped (current_line : str) : Z :=
  Z.of_nat (length (drop (Z.to_nat (wrap_point current_line)) current_line))
  - Z.of_nat (length (second_part current_line)).

(** Lines 283-293. *)
Definition new_cursor_col (current_line : str) (old_cursor_col : nat) : Z :=
  if (Z.of_nat (length (first_part current_line)) <? Z.of_nat old_cursor_col)%Z
  then
    let new_cursor_col :=
      Z.of_nat old_cursor_col - wrap_point current_line
      - spaces_stripped current_line in
    Z.max 0 new_cursor_col
  else Z.of_nat (length (second_part current_line)).

Definition check_and_wrap_current_line (self : t) : t :=
  if wrapping self then self
  else
    let cursor := cursor_location self in
    let current_line_index := cursor.1 in
    let lines := split NEWLINE (text self) in
    match lines !! current_line_index with
    | None => self
    | Some current_line =>
        if (MAX_LINE_LENGTH <? length current_line)%nat then
          let self := set_wrapping true self in
          let col := new_cursor_col current_line cursor.2 in
          let lines := <[current_line_index := first_part current_line]> lines in
          let lines :=
            py_insert (current_line_index + 1)
              (second_part current_line) lines in
          let new_text := join NEWLINE lines in
          let self := load_text new_text self in
          let self :=
            set_cursor_location
              ((current_line_index + 1)%nat, Z.to_nat col) self in
          set_wrapping false self
        else self
    end.

(** What the shell shows: the lines of the document and the line the
    cursor is on. *)
Definition lines_of (self : t) : list str := split NEWLINE (text self).

Definition cursor_line (self : t) : option str :=
  lines_of self !! (cursor_location self).1.

(** Building test documents from ASCII literals. *)
Fixpoint of_string (s : string) : str :=
  match s with
  | EmptyString => []
  | String a s' => Ascii.N_of_ascii a :: of_string s'
  end.

End NoteEditor.

(** ** NoteListItem *)

Module NoteListItem.

Import NoteEditor.

(** [s.replace(old, new)] for one-character arguments. *)
Definition replace (old new : char) (s : str) : str :=
  (fun c => if (c =? old)%N then new else c) <$> s.

(** The third [Static] of [compose], without the [[dim]] markup around
    it: the first 50 characters of the content on one line, and three
    dots when something was cut off. *)
Definition preview (content : str) : str :=
  let preview := replace NEWLINE SPACE (take 50 content) in
  if (50 <? length content)%nat then (preview ++ of_string "...")%list
  else preview.

End NoteListItem.

(** ** PasswordScreen *)

Module PasswordScreen.

Import PasswordManager.

(** What a press of "Unlock" (or Enter) does to the screen. *)
Inductive Outcome :=
| EmptyPassword      (* "Password cannot be empty" is shown *)
| IncorrectPassword  (* "Incorrect password" is shown, the input cleared *)
| Dismissed (authenticated : bool).

Section Hashing.

Variable sha256_hexdigest : string -> string.

(** [on_input_submitted], and the "submit-btn" branch of
    [on_button_pressed], which has the same body. *)
Definition on_input_submitted (password : string) (auth_file : AuthFile) : Outcome :=
  if bool_decide (password = "") then EmptyPassword
  else if verify_password sha256_hexdigest password auth_file then Dismissed true
  else IncorrectPassword.

End Hashing.

End PasswordScreen.

(** ** NotesApp *)

Module NotesApp.

Import NoteData.

(** The fields of the application the handlers read and write: the store,
    the folder on display and the note loaded in the editor
    ([editor.current_note_id]).  What a handler reads from a widget comes
    in as an argument; what it only paints (lists, notifications, focus)
    is left out. *)
Record t := mk {
  note_data : NoteData.t;
  current_folder : string;
  current_note_id : option Z
}.

(** [__init__] *)
Definition init (notes_file : option Data) : t :=
  {| note_data := NoteData.init notes_file;
     current_folder := "All Notes";
     current_note_id := None |}.

(** [folder_index] is [folder_list.index].  Indexing the folder list out
    of range raises [IndexError]: the handler then has no result. *)
Definition on_folder_selected (folder_index : option nat) (self : t) : option t :=
  match folder_index with
  | None => Some self
  | Some i =>
      match folders (data (note_data self)) !! i with
      | None => None
      | Some f =>
          Some {| note_data := note_data self;
                  current_folder := f;
                  current_note_id := None |}
      end
  end.

(** The "note-list" branch of [on_list_view_selected] for a
    [NoteListItem]. *)
Definition on_note_selected (note : Note) (self : t) : t :=
  {| note_data := note_data self;
     current_folder := current_folder self;
     current_note_id := Some (id note) |}.

Definition action_new_note (now_created now_modified : string) (self : t) : t :=
  let '(note, nd) :=
    add_note "Untitled Note" "" (current_folder self)
      now_created now_modified (note_data self) in
  {| note_data := nd;
     current_folder := current_folder self;
     current_note_id := Some (id note) |}.

(** [check_folder_name], the callback of [action_new_folder]:
    [folder_name] is what the dialog was dismissed with. *)
Definition check_folder_name (folder_name : option string) (self : t) : t :=
  match folder_name with
  | None => self
  | Some name =>
      if bool_decide (name = "") then self
      else
        {| note_data := (add_folder name (note_data self)).2;
           current_folder := current_folder self;
           current_note_id := current_note_id self |}
  end.

(** [stripped_title] is [title_input.value.strip()], [content] is
    [editor.text]. *)
Definition action_save_note (stripped_title content now : string) (self : t) : t :=
  match current_note_id self with
  | Some note_id =>
      let title := py_or stripped_title "Untitled Note" in
      {| note_data := (update_note note_id title content now (note_data self)).2;
         current_folder := current_folder self;
         current_note_id := current_note_id self |}
  | None => self
  end.

(** [action_delete_note] with the folder panel focused, followed by
    [handle_delete_confirmation confirmed]. *)
Definition action_delete_folder (folder_index : option nat) (confirmed : bool)
    (self : t) : option t :=
  match folder_index with
  | None => Some self
  | Some i =>
      match folders (data (note_data self)) !! i with
      | None => None
      | Some folder_to_delete =>
          if bool_decide (folder_to_delete = "All Notes") then Some self
          else if confirmed then
            let '(deleted, nd) := delete_folder folder_to_delete (note_data self) in
            if deleted then
              if bool_decide (current_folder self = folder_to_delete) then
                Some {| note_data := nd;
                        current_folder := "All Notes";
                        current_note_id := None |}
              else
                Some {| note_data := nd;
                        current_folder := current_folder self;
                        current_note_id := current_note_id self |}
            else
              Some {| note_data := nd;
                      current_folder := current_folder self;
                      current_note_id := current_note_id self |}
          else Some self
      end
  end.

(** [action_delete_note] with another panel focused.  [highlighted] is
    the id of the note under the list cursor, when there is one. *)
Definition action_delete_note (highlighted : option Z) (self : t) : t :=
  let note_to_delete :=
    match current_note_id self with
    | Some i => Some i
    | None => highlighted
    end in
  match note_to_delete with
  | Some i =>
      {| note_data := delete_note i (note_data self);
         current_folder := current_folder self;
         current_note_id := None |}
  | None => self
  end.

Inductive Event :=
| FolderSelected (folder_index : option nat)
| NoteSelected (note : Note)
| NewNote (now_created now_modified : string)
| NewFolder (folder_name : option string)
| SaveNote (stripped_title content now : string)
| DeleteFolderConfirmed (folder_index : option nat) (confirmed : bool)
| DeleteNotePressed (highlighted : option Z).

Definition handle (ev : Event) (self : t) : option t :=
  match ev with
  | FolderSelected i => on_folder_selected i self
  | NoteSelected n => Some (on_note_selected n self)
  | NewNote n1 n2 => Some (action_new_note n1 n2 self)
  | NewFolder f => Some (check_folder_name f self)
  | SaveNote ti c n => Some (action_save_note ti c n self)
  | DeleteFolderConfirmed i c => action_delete_folder i c self
  | DeleteNotePressed h => Some (action_delete_note h self)
  end.

(** A session: the events in order, stopping at the first exception. *)
Fixpoint session (evs : list Event) (self : t) : option t :=
  match evs with
  | [] => Some self
  | ev :: evs' =>
      match handle ev self with
      | Some self' => session evs' self'
      | None => None
      end
  end.

End NotesApp.

(** * Vocabulary of the properties *)

Local Open Scope list_scope.

(** ** The note store *)

Section StoreVocabulary.

Import NoteData.

Implicit Types (self : NoteData.t).

Definition ids self : list Z := id <$> notes (data self).

(** Every note sits in the virtual folder or in a folder of the list. *)
Definition folder_inv self : Prop :=
  Forall (fun n => folder n = "All Notes" ∨ folder n ∈ folders (data self))
    (notes (data self)).

(** The calls for which the store keeps [folder_inv]: a note is filed under
    a folder that exists, and a folder other than the fallback is deleted
    while the fallback exists (or the call is rejected). *)
Definition keeps_folders (op : Op) self : bool :=
  match op with
  | AddNote _ _ f _ _ =>
      bool_decide (f = "All Notes") || bool_decide (f ∈ folders (data self))
  | DeleteFolder f =>
      bool_decide (f = "All Notes")
      || negb (bool_decide (f ∈ folders (data self)))
      || negb (bool_decide (f = "Personal"))
         && bool_decide ("Personal" ∈ folders (data self))
  | _ => true
  end.

Fixpoint all_keep_folders (ops : list Op) self : bool :=
  match ops with
  | [] => true
  | op :: ops' => keeps_folders op self && all_keep_folders ops' (run_op op self)
  end.

(** The ids [1..n] in order: what [add_note] produces when nothing was
    deleted from the middle. *)
Definition dense_ids self : Prop :=
  ids self = Z.of_nat <$> seq 1 (length (notes (data self))).

(** A deletion that cannot make the next id collide: the id is absent, or
    it is the highest one, [len(notes)]. *)
Definition keeps_ids (op : Op) self : bool :=
  match op with
  | DeleteNote i =>
      negb (bool_decide (i ∈ ids self))
      || bool_decide (i = Z.of_nat (length (notes (data self))))
  | _ => true
  end.

Fixpoint all_keep_ids (ops : list Op) self : bool :=
  match ops with
  | [] => true
  | op :: ops' => keeps_ids op self && all_keep_ids ops' (run_op op self)
  end.

End StoreVocabulary.

(** ** The wrapping editor *)

Section EditorVocabulary.

Import NoteEditor.

Local Open Scope nat_scope.

(** The second application of the reflow finds nothing to do: the flag is
    up, the cursor is off the document, the cursor line is short enough,
    or what is left after the cut is short enough. *)
Definition remainder_fits (self : NoteEditor.t) : bool :=
  wrapping self
  || match cursor_line self with
     | None => true
     | Some line =>
         (length line <=? MAX_LINE_LENGTH)
         || (length (second_part line) <=? MAX_LINE_LENGTH)
     end.

(** [p] is the rightmost space of [line] among the indices below
    [bound]. *)
Definition rightmost_space_below (bound : nat) (line : str) (p : nat) : Prop :=
  p < bound ∧ line !! p = Some SPACE
  ∧ forall j, p < j -> j < bound -> line !! j ≠ Some SPACE.

(** The wording of the specification, kept apart from the code: only the
    space character is trimmed. *)
Fixpoint trim_leading_spaces (s : str) : str :=
  match s with
  | [] => []
  | c :: s' => if (c =? SPACE)%N then trim_leading_spaces s' else s
  end.

Definition trim_trailing_spaces (s : str) : str :=
  reverse (trim_leading_spaces (reverse s)).

(** The wording of the specification: the rightmost space at or before
    column [MAX_LINE_LENGTH]. *)
Definition rightmost_space_upto (bound : nat) (line : str) (p : nat) : Prop :=
  p <= bound ∧ line !! p = Some SPACE
  ∧ forall j, p < j -> j <= bound -> line !! j ≠ Some SPACE.

End EditorVocabulary.

(** ** Persistence, titles and the shell *)

Section MoreVocabulary.

Import NoteData.

(** The content of [NOTES_FILE]: the last document written, or what was
    there at start-up when nothing was written yet. *)
Definition on_disk (notes_file : option Data) (self : NoteData.t) : option Data :=
  match written self with
  | d :: _ => Some d
  | [] => notes_file
  end.

Definition all_titled (self : NoteData.t) : Prop :=
  Forall (fun n => title n ≠ "") (notes (data self)).

(** The folder on display is the virtual one or a folder of the list. *)
Definition current_folder_ok (app : NotesApp.t) : Prop :=
  NotesApp.current_folder app = "All Notes"
  ∨ NotesApp.current_folder app ∈ folders (data (NotesApp.note_data app)).

(** No confirmed deletion in the session is aimed at ["Personal"]. *)
Fixpoint spares_personal (evs : list NotesApp.Event) (app : NotesApp.t) : bool :=
  match evs with
  | [] => true
  | ev :: evs' =>
      match ev with
      | NotesApp.DeleteFolderConfirmed (Some i) true =>
          negb (bool_decide
                  (folders (data (NotesApp.note_data app)) !! i = Some "Personal"))
      | _ => true
      end
      && match NotesApp.handle ev app with
         | Some app' => spares_personal evs' app'
         | None => true
         end
  end.

(** The length of the line the cursor is on, 0 off the document. *)
Definition cursor_line_length (self : NoteEditor.t) : nat :=
  match NoteEditor.cursor_line self with
  | Some line => length line
  | None => 0%nat
  end.

End MoreVocabulary.

(** * Properties *)

(** Closed decidable facts are settled by evaluating their decision
    procedure. *)
Ltac by_computing :=
  apply (bool_decide_eq_true_1 _); vm_compute; reflexivity.

Ltac by_computing_not H :=
  apply (bool_decide_eq_true_2 _) in H; vm_compute in H; discriminate H.

(** ** The note store *)

Section NoteStore.

Import NoteData.

Implicit Types (self : NoteData.t) (ns : list Note) (fs : list string).

(** *** Lists *)

Lemma py_remove_split x fs :
  x ∈ fs ->
  exists l1 l2, fs = l1 ++ x :: l2 ∧ (x ∉ l1) ∧ py_remove x fs = l1 ++ l2.
Proof.
  induction fs as [|y fs IH]; intros Hin.
  - by apply elem_of_nil in Hin.
  - simpl. case_bool_decide as Hy.
    + subst y. exists [], fs. split_and!; [done| |done]. apply not_elem_of_nil.
    + apply elem_of_cons in Hin as [->|Hin]; [done|].
      destruct (IH Hin) as (l1 & l2 & -> & Hl1 & ->).
      exists (y :: l1), l2. split_and!; [done| |done].
      rewrite elem_of_cons. intros [->|?]; tauto.
Qed.

Lemma elem_of_py_remove_ne x y fs :
  y ≠ x -> y ∈ fs -> y ∈ py_remove x fs.
Proof.
  intros Hne. induction fs as [|z fs IH]; simpl; [done|].
  rewrite elem_of_cons. case_bool_decide as Hz.
  - intros [->|?]; [by subst|done].
  - rewrite elem_of_cons. intros [->|?]; [by left|right; auto].
Qed.

Lemma py_remove_NoDup x fs : NoDup fs -> x ∉ py_remove x fs.
Proof.
  induction 1 as [|y fs Hy Hnd IH]; simpl.
  - apply not_elem_of_nil.
  - case_bool_decide as Heq; [by subst|].
    rewrite elem_of_cons. intros [->|?]; tauto.
Qed.

(** *** The loop of [update_note] *)

Lemma update_loop_None note_id ti c now ns :
  update_loop note_id ti c now ns = None <->
  Forall (fun n => id n ≠ note_id) ns.
Proof.
  induction ns as [|n ns IH]; simpl.
  - split; [constructor|done].
  - case_bool_decide as Hid.
    + split; [done|]. intros H. by apply Forall_cons in H as [? _].
    + destruct (update_loop note_id ti c now ns) as [[m ns']|] eqn:E.
      * split; [done|]. intros H. apply Forall_cons in H as [_ H].
        by apply IH in H.
      * split; [|done]. intros _. constructor; [done|]. by apply IH.
Qed.

Lemma update_loop_Some note_id ti c now ns found ns' :
  update_loop note_id ti c now ns = Some (found, ns') ->
  exists (i : nat) n,
    ns !! i = Some n ∧ id n = note_id
    ∧ (forall (j : nat) m, (j < i)%nat -> ns !! j = Some m -> id m ≠ note_id)
    ∧ found = overwrite ti c now n
    ∧ ns' = <[i := found]> ns.
Proof.
  revert found ns'. induction ns as [|n ns IH]; intros found ns'; simpl; [done|].
  case_bool_decide as Hid.
  - intros [= <- <-]. exists 0%nat, n. split_and!; try done. intros j m Hj. lia.
  - destruct (update_loop note_id ti c now ns) as [[m ns1]|] eqn:E; [|done].
    intros [= <- <-]. destruct (IH _ _ eq_refl) as (i & k & Hk & Hidk & Hfirst & Hm & Hns).
    exists (S i), k. split_and!; try done.
    + intros [|j] m' Hj; simpl; [by intros [= <-]|]. apply Hfirst. lia.
    + simpl. by rewrite Hns.
Qed.

Lemma update_loop_shape note_id ti c now ns found ns' :
  update_loop note_id ti c now ns = Some (found, ns') ->
  id <$> ns' = id <$> ns ∧ folder <$> ns' = folder <$> ns.
Proof.
  revert found ns'. induction ns as [|n ns IH]; intros found ns'; simpl; [done|].
  case_bool_decide as Hid.
  - by intros [= <- <-].
  - destruct (update_loop note_id ti c now ns) as [[m ns1]|] eqn:E; [|done].
    intros [= <- <-]. destruct (IH _ _ eq_refl) as [H1 H2].
    rewrite !fmap_cons. by rewrite H1, H2.
Qed.

End NoteStore.

Section NoteStoreInvariants.

Import NoteData.

Implicit Types (self : NoteData.t) (ns : list Note) (fs : list string).

(** *** Steps and the folder invariant *)

Lemma folder_inv_init : folder_inv (init None).
Proof. constructor. Qed.

Lemma folder_inv_step op self :
  folder_inv self -> keeps_folders op self = true -> folder_inv (run_op op self).
Proof.
  unfold folder_inv. intros Hinv Hok.
  destruct op as [ti c f n1 n2|i ti c now|i|f|f]; simpl in *.
  - apply Forall_app. split; [done|]. constructor; [|constructor]. simpl.
    apply orb_true_iff in Hok as [H|H]; apply bool_decide_eq_true in H; auto.
  - unfold update_note.
    destruct (update_loop i ti c now (notes (data self))) as [[m ns']|] eqn:E;
      simpl; [|done].
    apply update_loop_shape in E as [_ E].
    assert (H : Forall
              (fun f => f = "All Notes" ∨ f ∈ folders (data self))
              (folder <$> ns')).
    { rewrite E. by apply Forall_fmap. }
    by apply Forall_fmap in H.
  - apply Forall_forall. intros n Hn.
    apply list_elem_of_In, filter_In in Hn as [Hn _].
    apply list_elem_of_In in Hn. by eapply Forall_forall in Hinv.
  - unfold add_folder.
    destruct (negb (bool_decide (f = ""))
              && negb (bool_decide (f ∈ folders (data self)))); simpl; [|done].
    eapply Forall_impl; [done|]. intros n [?|?]; [by left|right].
    apply elem_of_app. by left.
  - unfold delete_folder. case_bool_decide as Hall; [done|].
    case_bool_decide as Hin; simpl; [|done].
    apply andb_true_iff in Hok as [Hne Hp].
    apply negb_true_iff, bool_decide_eq_false in Hne.
    apply bool_decide_eq_true in Hp.
    unfold move_notes. apply Forall_fmap.
    eapply Forall_impl; [done|]. intros n Hn. simpl.
    case_bool_decide as Hf; simpl.
    + right. by apply elem_of_py_remove_ne.
    + destruct Hn as [?|?]; [by left|right]. by apply elem_of_py_remove_ne.
Qed.

(** *** Steps and dense ids *)

Lemma filter_ids i ns :
  id <$> List.filter (fun n => negb (bool_decide (id n = i))) ns
  = List.filter (fun x => negb (bool_decide (x = i))) (id <$> ns).
Proof.
  induction ns as [|n ns IH]; [done|].
  rewrite fmap_cons. cbn [List.filter].
  destruct (negb (bool_decide (id n = i))); [rewrite fmap_cons|]; by rewrite IH.
Qed.

Lemma filter_absent (i : Z) (l : list Z) :
  i ∉ l -> List.filter (fun x => negb (bool_decide (x = i))) l = l.
Proof.
  induction l as [|x l IH]; simpl; [done|].
  rewrite not_elem_of_cons. intros [Hx Hl].
  rewrite bool_decide_eq_false_2 by done. simpl. by rewrite IH.
Qed.

Lemma filter_top (n : nat) :
  List.filter (fun x => negb (bool_decide (x = Z.of_nat (S n))))
    (Z.of_nat <$> seq 1 (S n))
  = Z.of_nat <$> seq 1 n.
Proof.
  rewrite seq_S, fmap_app, List.filter_app, filter_absent.
  - simpl. rewrite bool_decide_eq_true_2 by done. simpl. apply app_nil_r.
  - intros H. apply list_elem_of_fmap in H as (k & Hk & Hin).
    apply elem_of_seq in Hin. lia.
Qed.

Lemma dense_ids_step op self :
  dense_ids self -> keeps_ids op self = true -> dense_ids (run_op op self).
Proof.
  unfold dense_ids, ids. intros Hd Hok.
  destruct op as [ti c f n1 n2|i ti c now|i|f|f]; simpl in *.
  - rewrite fmap_app, length_app, Hd. simpl.
    rewrite Nat.add_1_r, seq_S, fmap_app. simpl. do 2 f_equal. lia.
  - unfold update_note.
    destruct (update_loop i ti c now (notes (data self))) as [[m ns']|] eqn:E;
      simpl; [|done].
    apply update_loop_shape in E as [E _].
    rewrite E, Hd. f_equal. f_equal.
    rewrite <- (length_fmap id ns'), E. by rewrite length_fmap.
  - set (ns' := List.filter _ _).
    assert (Hids : id <$> ns' =
              Z.of_nat <$> seq 1 (length (id <$> ns'))); [|by rewrite length_fmap in Hids].
    unfold ns'. rewrite filter_ids, Hd.
    apply orb_true_iff in Hok as [Hok|Hok].
    + apply negb_true_iff, bool_decide_eq_false in Hok. unfold ids in Hok.
      rewrite Hd in Hok. rewrite filter_absent by done.
      by rewrite length_fmap, length_seq.
    + apply bool_decide_eq_true in Hok. subst i.
      destruct (length (notes (data self))) as [|n].
      * done.
      * rewrite filter_top. by rewrite length_fmap, length_seq.
  - unfold add_folder.
    by destruct (negb (bool_decide (f = ""))
                 && negb (bool_decide (f ∈ folders (data self)))).
  - unfold delete_folder. case_bool_decide; [done|]. case_bool_decide; simpl; [|done].
    unfold move_notes. rewrite length_fmap, <- list_fmap_compose, <- Hd.
    apply list_fmap_ext. intros _ n _. simpl. by case_bool_decide.
Qed.

End NoteStoreInvariants.

Section NoteStoreClaims.

Import NoteData.

Implicit Types (self : NoteData.t) (ns : list Note) (fs : list string).

(** C1, as the store implements it.  [folder_inv] holds of the freshly
    initialised store ([folder_inv_init]) and survives every session in
    which each [add_note] files the note under ["All Notes"] or a folder
    of the list, and each accepted [delete_folder] removes a folder other
    than ["Personal"] while ["Personal"] is in the list.  [update_note],
    [delete_note] and [add_folder] need no condition. *)
Theorem folder_inv_preserved (ops : list Op) self
    (Hinv : folder_inv self) (Hok : all_keep_folders ops self = true) :
  folder_inv (run ops self).
Proof.
  revert self Hinv Hok. induction ops as [|op ops IH]; intros self Hinv Hok.
  - exact Hinv.
  - simpl in Hok. apply andb_true_iff in Hok as [Hop Hops].
    apply (IH (run_op op self)); [|exact Hops].
    by apply folder_inv_step.
Qed.

Lemma folder_inv_preserved_witness :
  folder_inv
    (run [AddNote "Groceries" "milk" "Work" "t1" "t1";
          AddFolder "Ideas";
          DeleteFolder "Work";
          UpdateNote 1 "" "eggs" "t2";
          DeleteNote 1]
       (init None)).
Proof.
  apply folder_inv_preserved; [apply folder_inv_init | vm_compute; reflexivity].
Defined.

(** C1 as stated fails twice over.  A note filed under a name that is not
    a folder is accepted by [add_note]; and deleting ["Personal"] leaves
    its notes pointing at the folder that was just removed. *)
Lemma folder_inv_broken :
  (folder_inv (init None)
   ∧ ¬ folder_inv (run_op (AddNote "n" "" "Misc" "t1" "t1") (init None)))
  ∧ (let s := run_op (AddNote "n" "" "Personal" "t1" "t1") (init None) in
     folder_inv s
     ∧ (delete_folder "Personal" s).1 = true
     ∧ ¬ folder_inv (delete_folder "Personal" s).2).
Proof.
  split; [split; [apply folder_inv_init|]|split_and!].
  - intros H. apply Forall_cons in H as [[H|H] _]; [done|].
    by_computing_not H.
  - constructor; [|constructor]. right.
    by_computing.
  - reflexivity.
  - intros H. apply Forall_cons in H as [[H|H] _]; [done|].
    by_computing_not H.
Qed.

(** C2, as the store implements it.  Starting from a store without notes,
    as long as every [delete_note] names an absent id or the highest id
    (the note count), the ids are [1..n] in order, hence pairwise
    distinct, and the next [add_note] hands out the note count plus
    one. *)
Theorem ids_distinct (ops : list Op) self
    (Hempty : notes (data self) = []) (Hok : all_keep_ids ops self = true) :
  let s := run ops self in
  NoDup (ids s)
  ∧ ids s = Z.of_nat <$> seq 1 (length (notes (data s)))
  ∧ forall ti c f n1 n2,
      id (add_note ti c f n1 n2 s).1 = Z.of_nat (length (notes (data s))) + 1.
Proof.
  assert (Hd : dense_ids self) by (unfold dense_ids, ids; by rewrite Hempty).
  clear Hempty. revert self Hd Hok.
  induction ops as [|op ops IH]; intros self Hd Hok.
  - simpl. split_and!; [|exact Hd|done].
    unfold dense_ids in Hd. rewrite Hd.
    apply NoDup_fmap; [apply _|apply NoDup_seq].
  - simpl in Hok. apply andb_true_iff in Hok as [Hop Hops].
    apply (IH (run_op op self)); [|exact Hops].
    by apply dense_ids_step.
Qed.

Lemma ids_distinct_witness :
  let s := run [AddNote "a" "" "Work" "t1" "t1";
                AddNote "b" "" "Work" "t2" "t2";
                DeleteNote 2;
                AddNote "c" "" "Work" "t3" "t3"] (init None) in
  NoDup (ids s)
  ∧ ids s = Z.of_nat <$> seq 1 (length (notes (data s)))
  ∧ forall ti c f n1 n2,
      id (add_note ti c f n1 n2 s).1 = Z.of_nat (length (notes (data s))) + 1.
Proof.
  apply ids_distinct; [reflexivity | vm_compute; reflexivity].
Defined.

(** C2 as stated fails: delete the first of two notes, add a third, and
    two notes carry the id 2. *)
Lemma ids_reused :
  let s := run [AddNote "a" "" "Work" "t1" "t1";
                AddNote "b" "" "Work" "t2" "t2";
                DeleteNote 1;
                AddNote "c" "" "Work" "t3" "t3"] (init None) in
  ids s = [2; 2] ∧ ¬ NoDup (ids s).
Proof.
  split; [reflexivity|]. intros H.
  change (NoDup [2; 2]) in H. apply NoDup_cons in H as [H _].
  apply H. by left.
Qed.

(** C7.  [delete_folder] refuses ["All Notes"], and a name that is not
    in the list, and changes nothing.  For another folder of the list it
    answers [True]; the first occurrence of the name leaves the list (the
    only one when names are unique), each note of that folder now says
    ["Personal"], the other notes are untouched, and the result is
    written. *)
Theorem delete_folder_spec (folder_name : string) self :
  (folder_name = "All Notes" -> delete_folder folder_name self = (false, self))
  ∧ (folder_name ∉ folders (data self) ->
     delete_folder folder_name self = (false, self))
  ∧ (folder_name ≠ "All Notes" -> folder_name ∈ folders (data self) ->
     exists l1 l2,
       folders (data self) = l1 ++ folder_name :: l2
       ∧ (folder_name ∉ l1)
       ∧ (NoDup (folders (data self)) -> folder_name ∉ l1 ++ l2)
       ∧ let d :=
           {| folders := l1 ++ l2;
              notes :=
                (fun n =>
                   if bool_decide (folder n = folder_name)
                   then mkNote (id n) (title n) (content n) "Personal"
                          (created n) (modified n)
                   else n) <$> notes (data self) |} in
         delete_folder folder_name self
         = (true, {| data := d; written := d :: written self |})).
Proof.
  split_and!.
  - intros ->. reflexivity.
  - intros Hnin. unfold delete_folder. case_bool_decide; [done|].
    by rewrite bool_decide_eq_false_2.
  - intros Hne Hin. unfold delete_folder.
    rewrite bool_decide_eq_false_2, bool_decide_eq_true_2 by done.
    destruct (py_remove_split _ _ Hin) as (l1 & l2 & Hfs & Hl1 & Hrm).
    exists l1, l2. split_and!; [done|done| |].
    + intros Hnd. rewrite <- Hrm. by apply py_remove_NoDup.
    + simpl. by rewrite Hrm.
Qed.

Lemma delete_folder_spec_witness :
  delete_folder "All Notes" (init None) = (false, init None)
  ∧ exists l1 l2,
      ["All Notes"; "Personal"; "Work"] = l1 ++ "Work" :: l2
      ∧ (delete_folder "Work" (init None)).1 = true
      ∧ folders (data (delete_folder "Work" (init None)).2) = l1 ++ l2.
Proof.
  split.
  - apply (proj1 (delete_folder_spec "All Notes" (init None))). reflexivity.
  - destruct (proj2 (proj2 (delete_folder_spec "Work" (init None))))
      as (l1 & l2 & Hfs & _ & _ & Hdel).
    + intros H. by_computing_not H.
    + by_computing.
    + exists l1, l2. split; [exact Hfs|]. simpl in Hdel. rewrite Hdel. done.
Defined.

End NoteStoreClaims.

Section NoteStoreErrors.

Import NoteData.

Implicit Types (self : NoteData.t).

(** C9.  Either no note has the id, and [update_note] answers [None]
    without touching the object or the file; or [n], at index [i], is the
    first note with that id, and the call answers the rewritten note,
    puts it at index [i], leaves every other note and the folders alone,
    and writes the result.  The rewritten note has the new content, the
    new title (["Untitled Note"] for an empty one), the new [modified]
    stamp and [n]'s id, folder and [created] stamp. *)
Theorem update_note_spec (note_id : Z) (title content now : string) self :
  (Forall (fun n => id n ≠ note_id) (notes (data self))
   ∧ update_note note_id title content now self = (None, self))
  ∨ (exists (i : nat) n,
       notes (data self) !! i = Some n
       ∧ id n = note_id
       ∧ (forall (j : nat) m,
            (j < i)%nat -> notes (data self) !! j = Some m -> id m ≠ note_id)
       ∧ let n' :=
           mkNote (id n)
             (if bool_decide (title = "") then "Untitled Note" else title)
             content (folder n) (created n) now in
         let d :=
           {| folders := folders (data self);
              notes := <[i := n']> (notes (data self)) |} in
         update_note note_id title content now self
         = (Some n', {| data := d; written := d :: written self |})).
Proof.
  unfold update_note.
  destruct (update_loop note_id title content now (notes (data self)))
    as [[found ns']|] eqn:E.
  - right. apply update_loop_Some in E as (i & n & Hi & Hid & Hfirst & -> & ->).
    exists i, n. split_and!; done.
  - left. split; [|done].
    exact (proj1 (update_loop_None note_id title content now _) E).
Qed.

(** When two notes share the id 2, saving under that id rewrites the
    older one only. *)
Example update_note_first_match :
  let s := run [AddNote "a" "" "Work" "t1" "t1";
                AddNote "b" "" "Work" "t2" "t2";
                DeleteNote 1;
                AddNote "c" "" "Work" "t3" "t3"] (init None) in
  title <$> notes (data (update_note 2 "" "text" "t4" s).2)
  = ["Untitled Note"; "c"]
  ∧ (update_note 7 "x" "text" "t4" s) = (None, s).
Proof. split; reflexivity. Qed.

(** C10.  An empty name or a name already in the list is refused:
    [add_folder] answers [False] and neither the object nor the file
    changes.  Any other name goes to the end of the list, the notes stay
    as they are, the result is written and the answer is [True]. *)
Theorem add_folder_spec (folder_name : string) self :
  (folder_name = "" ∨ folder_name ∈ folders (data self) ->
   add_folder folder_name self = (false, self))
  ∧ (folder_name ≠ "" -> folder_name ∉ folders (data self) ->
     let d :=
       {| folders := folders (data self) ++ [folder_name];
          notes := notes (data self) |} in
     add_folder folder_name self
     = (true, {| data := d; written := d :: written self |})).
Proof.
  unfold add_folder. split.
  - intros [->|Hin]; [done|].
    rewrite (bool_decide_eq_true_2 _ Hin). by rewrite andb_false_r.
  - intros Hne Hnin. by rewrite !bool_decide_eq_false_2.
Qed.

Lemma add_folder_spec_witness :
  add_folder "" (init None) = (false, init None)
  ∧ add_folder "Work" (init None) = (false, init None)
  ∧ (add_folder "work" (init None)).1 = true
  ∧ folders (data (add_folder "work" (init None)).2)
    = ["All Notes"; "Personal"; "Work"; "work"].
Proof.
  split_and!.
  - apply (proj1 (add_folder_spec "" (init None))). by left.
  - apply (proj1 (add_folder_spec "Work" (init None))). right. by_computing.
  - rewrite (proj2 (add_folder_spec "work" (init None))); [reflexivity|done|].
    intros H. by_computing_not H.
  - rewrite (proj2 (add_folder_spec "work" (init None))); [reflexivity|done|].
    intros H. by_computing_not H.
Defined.

End NoteStoreErrors.

(** ** The password gate *)

Section PasswordGate.

Import PasswordManager.

Variable sha256_hexdigest : string -> string.

(** C8.  Without a credential file every password is refused.  With a
    file whose persisted [enabled] flag is false (or missing) every
    password is accepted.  With the flag set, a password is accepted
    exactly when its hash is the stored one. *)
Theorem verify_password_spec (password : string) (auth_file : AuthFile) :
  match auth_file with
  | None => verify_password sha256_hexdigest password auth_file = false
  | Some data =>
      match enabled data with
      | Some true =>
          verify_password sha256_hexdigest password auth_file = true
          <-> password_hash data = Some (sha256_hexdigest password)
      | Some false | None =>
          verify_password sha256_hexdigest password auth_file = true
      end
  end.
Proof.
  destruct auth_file as [[flag stored]|]; [|reflexivity].
  destruct flag as [[|]|]; [|reflexivity|reflexivity].
  unfold verify_password, get_enabled, hash_password. simpl.
  rewrite bool_decide_eq_true. split; congruence.
Qed.

(** After [set_password p] the gate is on, [p] opens it, and a password
    with another hash does not; after [skip_password] the gate is off and
    anything opens it. *)
Lemma verify_after_set_password (p q : string) (auth_file : AuthFile) :
  let f := set_password sha256_hexdigest p auth_file in
  is_password_enabled f = true
  ∧ verify_password sha256_hexdigest p f = true
  ∧ (verify_password sha256_hexdigest q f = true
     <-> sha256_hexdigest q = sha256_hexdigest p).
Proof.
  simpl. split_and!; [done|by apply bool_decide_eq_true|].
  rewrite bool_decide_eq_true. unfold hash_password. split; congruence.
Qed.

Lemma verify_after_skip_password (q : string) (auth_file : AuthFile) :
  let f := skip_password auth_file in
  is_password_enabled f = false
  ∧ verify_password sha256_hexdigest q f = true.
Proof. done. Qed.

End PasswordGate.

(** ** The wrapping editor *)


Section EditorLists.

Import NoteEditor.

Local Open Scope nat_scope.

Implicit Types (s line : str) (lines : list str) (c sep : char).

(** *** [split] and [join] *)

Lemma split_nonempty sep s : split sep s ≠ [].
Proof.
  destruct s as [|c s]; simpl; [done|].
  destruct (c =? sep)%N; [done|]. by destruct (split sep s).
Qed.

Lemma split_no_sep sep s : Forall (fun line => sep ∉ line) (split sep s).
Proof.
  induction s as [|c s IH]; simpl.
  - constructor; [apply not_elem_of_nil|constructor].
  - destruct (N.eqb_spec c sep) as [->|Hne].
    + constructor; [apply not_elem_of_nil|done].
    + destruct (split sep s) as [|line lines] eqn:E;
        [by apply split_nonempty in E|].
      apply Forall_cons in IH as [Hl Hls]. constructor; [|done].
      rewrite not_elem_of_cons. split; [congruence|done].
Qed.

Lemma split_line sep line : sep ∉ line -> split sep line = [line].
Proof.
  induction line as [|c line IH]; simpl; [done|].
  rewrite not_elem_of_cons. intros [Hc Hl].
  destruct (N.eqb_spec c sep) as [->|_]; [done|]. by rewrite IH.
Qed.

Lemma split_app_sep sep line s :
  sep ∉ line -> split sep (line ++ sep :: s) = line :: split sep s.
Proof.
  induction line as [|c line IH]; simpl.
  - intros _. by rewrite N.eqb_refl.
  - rewrite not_elem_of_cons. intros [Hc Hl].
    destruct (N.eqb_spec c sep) as [->|_]; [done|]. by rewrite IH.
Qed.

Lemma split_join sep lines :
  lines ≠ [] -> Forall (fun line => sep ∉ line) lines ->
  split sep (join sep lines) = lines.
Proof.
  induction lines as [|line lines IH]; [done|]. intros _ Hall.
  apply Forall_cons in Hall as [Hl Hls].
  destruct lines as [|line' lines].
  - simpl. by apply split_line.
  - change (join sep (line :: line' :: lines))
      with (line ++ sep :: join sep (line' :: lines)).
    rewrite split_app_sep by done. f_equal. by apply IH.
Qed.

(** *** [lstrip] and [rstrip] *)

Lemma lstrip_suffix s : exists ws, s = ws ++ lstrip s ∧ Forall (fun c => py_isspace c = true) ws.
Proof.
  induction s as [|c s (ws & Hs & Hws)]; simpl.
  - by exists [].
  - destruct (py_isspace c) eqn:Hc.
    + exists (c :: ws). split; [simpl; by rewrite <- Hs|by constructor].
    + by exists [].
Qed.

Lemma lstrip_head s c : head (lstrip s) = Some c -> py_isspace c = false.
Proof.
  induction s as [|x s IH]; simpl; [done|].
  destruct (py_isspace x) eqn:Hx; [done|]. simpl. by intros [= <-].
Qed.

Lemma rstrip_last s c : last (rstrip s) = Some c -> py_isspace c = false.
Proof. unfold rstrip. rewrite last_reverse. apply lstrip_head. Qed.

Lemma lstrip_length s : length (lstrip s) <= length s.
Proof.
  destruct (lstrip_suffix s) as (ws & Hs & _).
  rewrite Hs at 2. rewrite length_app. lia.
Qed.

Lemma rstrip_length s : length (rstrip s) <= length s.
Proof.
  unfold rstrip. rewrite length_reverse.
  etrans; [apply lstrip_length|]. by rewrite length_reverse.
Qed.

Lemma elem_of_lstrip c s : c ∈ lstrip s -> c ∈ s.
Proof.
  destruct (lstrip_suffix s) as (ws & Hs & _). intros H.
  rewrite Hs. apply elem_of_app. by right.
Qed.

Lemma elem_of_rstrip c s : c ∈ rstrip s -> c ∈ s.
Proof.
  unfold rstrip. rewrite elem_of_reverse. intros H%elem_of_lstrip.
  by apply elem_of_reverse.
Qed.

Lemma lstrip_fixed s :
  (forall c, head s = Some c -> py_isspace c = false) -> lstrip s = s.
Proof.
  destruct s as [|x s]; simpl; [done|]. intros H. by rewrite (H x).
Qed.

End EditorLists.

Section EditorWrapPoint.

Import NoteEditor.

Local Open Scope nat_scope.

Implicit Types (s line : str) (lines : list str) (c : char).

(** *** [rfind] and the wrap point *)

Lemma last_index_spec c s (i seen : Z) :
  (Forall (fun x => x ≠ c) s ∧ last_index c s i seen = seen)
  ∨ (exists k : nat,
       s !! k = Some c
       ∧ (forall j, k < j -> s !! j ≠ Some c)
       ∧ last_index c s i seen = (i + Z.of_nat k)%Z).
Proof.
  revert i seen. induction s as [|x s IH]; intros i seen; simpl.
  - left. by split.
  - destruct (IH (i + 1)%Z (if (x =? c)%N then i else seen))
      as [[Hnone ->]|(k & Hk & Hlast & ->)].
    + destruct (N.eqb_spec x c) as [->|Hne].
      * right. exists 0. split_and!; [done| |f_equal; lia].
        intros [|j] Hj; [lia|]. simpl. intros Hs.
        apply list_elem_of_lookup_2 in Hs.
        by eapply Forall_forall in Hnone.
      * left. split; [by constructor|done].
    + right. exists (S k). split_and!; [done| |lia].
      intros [|j] Hj; [lia|]. simpl. apply Hlast. lia.
Qed.

Lemma wrap_point_cases line :
  (Forall (fun x => x ≠ SPACE) (take MAX_LINE_LENGTH line)
   ∧ wrap_point line = Z.of_nat MAX_LINE_LENGTH)
  ∨ (exists p, rightmost_space_below MAX_LINE_LENGTH line p
               ∧ wrap_point line = Z.of_nat p).
Proof.
  unfold wrap_point, rfind. rewrite Nat.sub_0_r, drop_0.
  destruct (last_index_spec SPACE (take MAX_LINE_LENGTH line) (Z.of_nat 0) (-1))
    as [[Hnone ->]|(k & Hk & Hlast & ->)].
  - left. by split.
  - right. exists k. apply lookup_take_Some in Hk as [Hk Hlt].
    split.
    + split_and!; [done|done|]. intros j Hj Hjb E.
      apply (Hlast j Hj). by rewrite lookup_take_lt.
    + destruct (Z.eqb_spec (Z.of_nat 0 + Z.of_nat k) (-1)); lia.
Qed.

Lemma wrap_point_at line p :
  rightmost_space_below MAX_LINE_LENGTH line p -> wrap_point line = Z.of_nat p.
Proof.
  intros (Hp & Hsp & Hmax).
  destruct (wrap_point_cases line) as [[Hnone _]|(q & (Hq & Hsq & Hqmax) & ->)].
  - exfalso. eapply Forall_forall in Hnone; [by apply Hnone|].
    apply (list_elem_of_lookup_2 _ p). by rewrite lookup_take_lt.
  - f_equal. destruct (Nat.lt_trichotomy p q) as [Hlt|[->|Hlt]]; [|done|].
    + by destruct (Hmax q Hlt Hq).
    + by destruct (Hqmax p Hlt Hp).
Qed.

Lemma wrap_point_bounds line :
  (0 <= wrap_point line <= Z.of_nat MAX_LINE_LENGTH)%Z.
Proof.
  destruct (wrap_point_cases line) as [[_ ->]|(p & (Hp & _) & ->)]; lia.
Qed.

Lemma first_part_length line :
  (Z.of_nat (length (first_part line)) <= wrap_point line)%Z.
Proof.
  unfold first_part. pose proof (wrap_point_bounds line) as Hb.
  pose proof (rstrip_length (take (Z.to_nat (wrap_point line)) line)) as Hr.
  rewrite length_take in Hr. lia.
Qed.

Lemma first_part_no_newline line : NEWLINE ∉ line -> NEWLINE ∉ first_part line.
Proof.
  intros Hl H. apply Hl. unfold first_part in H.
  apply elem_of_rstrip, elem_of_take in H as (i & Hi & _).
  by eapply list_elem_of_lookup_2.
Qed.

Lemma second_part_no_newline line : NEWLINE ∉ line -> NEWLINE ∉ second_part line.
Proof.
  intros Hl H. apply Hl. unfold second_part in H.
  apply elem_of_lstrip, list_elem_of_lookup_1 in H as (i & Hi).
  rewrite lookup_drop in Hi. by eapply list_elem_of_lookup_2.
Qed.

End EditorWrapPoint.

Section EditorDocument.

Import NoteEditor.

Local Open Scope nat_scope.

Implicit Types (s text line : str) (lines : list str) (c sep : char).

(** *** The document of an LF-only text *)

Lemma join_split sep text : join sep (split sep text) = text.
Proof.
  induction text as [|c text IH]; [done|]. simpl.
  destruct (split sep text) as [|line lines] eqn:E;
    [by apply split_nonempty in E|].
  destruct (N.eqb_spec c sep) as [->|_].
  - change (join sep ([] :: line :: lines))
      with (sep :: join sep (line :: lines)). by rewrite IH.
  - destruct lines; simpl in *; by rewrite IH.
Qed.

Lemma join_with_newline lines : join_with [NEWLINE] lines = join NEWLINE lines.
Proof.
  induction lines as [|line lines IH]; [done|].
  destruct lines as [|line' lines]; [done|].
  change (join_with [NEWLINE] (line :: line' :: lines))
    with (line ++ [NEWLINE] ++ join_with [NEWLINE] (line' :: lines)).
  by rewrite IH.
Qed.

Lemma lf_only_cons c text :
  lf_only (c :: text) = true ->
  (py_linebreak c = true -> c = NEWLINE) ∧ lf_only text = true.
Proof.
  unfold lf_only. simpl. intros [Hc Ht]%andb_true_iff. split; [|done].
  intros Hb. rewrite Hb in Hc. simpl in Hc. by apply N.eqb_eq.
Qed.

Lemma lf_only_Forall text :
  lf_only text = true
  <-> Forall (fun c => py_linebreak c = true -> c = NEWLINE) text.
Proof.
  induction text as [|c text IH].
  - split; [constructor|done].
  - split.
    + intros [Hc Ht]%lf_only_cons. constructor; [done|by apply IH].
    + intros [Hc Ht]%Forall_cons. unfold lf_only in *. simpl.
      apply andb_true_iff. split; [|by apply IH].
      destruct (py_linebreak c); [|done]. simpl. apply N.eqb_eq. auto.
Qed.

Lemma splitlines_nil text : splitlines text = [] -> text = [].
Proof.
  destruct text as [|c text]; [done|]. simpl.
  destruct (py_linebreak c).
  - destruct text as [|c' text]; [done|].
    by destruct ((c =? CARRIAGE_RETURN)%N && (c' =? NEWLINE)%N).
  - by destruct (splitlines text).
Qed.

Lemma document_lines_lf text :
  lf_only text = true -> document_lines text = split NEWLINE text.
Proof.
  unfold document_lines. induction text as [|c text IH]; [done|].
  intros [Hc Ht]%lf_only_cons. specialize (IH Ht).
  rewrite (bool_decide_eq_false_2 (c :: text = [])) by done.
  rewrite orb_false_r. cbn [splitlines split].
  destruct (py_linebreak c) eqn:Hb.
  - rewrite (Hc eq_refl) in *. rewrite N.eqb_refl.
    destruct text as [|c' text]; [done|].
    change ((NEWLINE =? CARRIAGE_RETURN)%N) with false. cbn [andb].
    rewrite <- IH.
    rewrite (bool_decide_eq_false_2 (c' :: text = [])) by done.
    rewrite orb_false_r.
    replace (ends_with_newline (NEWLINE :: c' :: text))
      with (ends_with_newline (c' :: text)) by done.
    by destruct (ends_with_newline (c' :: text)).
  - assert (Hne : (c =? NEWLINE)%N = false).
    { apply N.eqb_neq. intros ->. done. }
    rewrite Hne. rewrite <- IH.
    destruct text as [|c' text].
    + simpl. unfold ends_with_newline. simpl. rewrite Hne.
      assert (Hcr : (c =? CARRIAGE_RETURN)%N = false).
      { apply N.eqb_neq. intros ->. done. }
      by rewrite Hcr.
    + rewrite (bool_decide_eq_false_2 (c' :: text = [])) by done.
      rewrite orb_false_r.
      replace (ends_with_newline (c :: c' :: text))
        with (ends_with_newline (c' :: text)) by done.
      destruct (splitlines (c' :: text)) as [|line lines] eqn:E;
        [by apply splitlines_nil in E|].
      by destruct (ends_with_newline (c' :: text)).
Qed.

Lemma contains_crlf_lf text : lf_only text = true -> contains_crlf text = false.
Proof.
  induction text as [|c text IH]; [done|].
  intros [Hc Ht]%lf_only_cons. simpl. destruct text as [|c' text]; [done|].
  rewrite (IH Ht), orb_false_r.
  destruct (N.eqb_spec c CARRIAGE_RETURN) as [->|_]; [|done].
  by specialize (Hc eq_refl).
Qed.

Lemma no_carriage_return_lf text :
  lf_only text = true ->
  existsb (fun c => (c =? CARRIAGE_RETURN)%N) text = false.
Proof.
  induction text as [|c text IH]; [done|].
  intros [Hc Ht]%lf_only_cons. simpl. rewrite (IH Ht), orb_false_r.
  destruct (N.eqb_spec c CARRIAGE_RETURN) as [->|_]; [|done].
  by specialize (Hc eq_refl).
Qed.

(** The widget gives an LF-only text back as it got it. *)
Lemma document_text_lf text : lf_only text = true -> document_text text = text.
Proof.
  intros Hlf. unfold document_text, detect_newline_style.
  rewrite (contains_crlf_lf _ Hlf), (no_carriage_return_lf _ Hlf).
  rewrite (document_lines_lf _ Hlf).
  destruct (existsb _ text); by rewrite join_with_newline, join_split.
Qed.

Lemma Forall_split (P : char -> Prop) sep text :
  Forall P text -> Forall (Forall P) (split sep text).
Proof.
  induction 1 as [|c text Hc Ht IH]; simpl; [by repeat constructor|].
  destruct (c =? sep)%N; [by constructor|].
  destruct (split sep text) as [|line lines]; [by repeat constructor|].
  apply Forall_cons in IH as [Hl Hls]. constructor; [by constructor|done].
Qed.

Lemma Forall_join (P : char -> Prop) sep lines :
  P sep -> Forall (Forall P) lines -> Forall P (join sep lines).
Proof.
  intros Hsep. induction 1 as [|line lines Hl Hls IH]; [done|].
  destruct lines as [|line' lines]; [done|].
  change (join sep (line :: line' :: lines))
    with (line ++ sep :: join sep (line' :: lines)).
  apply Forall_app. split; [done|]. by constructor.
Qed.

Lemma Forall_first_part (P : char -> Prop) line :
  Forall P line -> Forall P (first_part line).
Proof.
  rewrite !Forall_forall. intros H c Hc. apply H. unfold first_part in Hc.
  apply elem_of_rstrip, elem_of_take in Hc as (i & Hi & _).
  by eapply list_elem_of_lookup_2.
Qed.

Lemma Forall_second_part (P : char -> Prop) line :
  Forall P line -> Forall P (second_part line).
Proof.
  rewrite !Forall_forall. intros H c Hc. apply H. unfold second_part in Hc.
  apply elem_of_lstrip, list_elem_of_lookup_1 in Hc as (i & Hi).
  rewrite lookup_drop in Hi. by eapply list_elem_of_lookup_2.
Qed.

(** The text the reflow builds from an LF-only document is LF-only. *)
Lemma new_text_lf text (r : nat) line :
  lf_only text = true ->
  split NEWLINE text !! r = Some line ->
  lf_only
    (join NEWLINE
       (take r (split NEWLINE text)
        ++ first_part line :: second_part line
           :: drop (S r) (split NEWLINE text))) = true.
Proof.
  intros Hlf Hline. apply lf_only_Forall. apply lf_only_Forall in Hlf.
  apply Forall_join; [done|].
  pose proof (Forall_split _ NEWLINE _ Hlf) as Hall.
  assert (Hl : Forall (fun c => py_linebreak c = true -> c = NEWLINE) line).
  { eapply Forall_forall in Hall; [done|]. by eapply list_elem_of_lookup_2. }
  apply Forall_app. split; [by apply Forall_take|].
  constructor; [by apply Forall_first_part|].
  constructor; [by apply Forall_second_part|]. by apply Forall_drop.
Qed.

End EditorDocument.

Section EditorReflow.

Import NoteEditor.

Local Open Scope nat_scope.

Implicit Types (self : NoteEditor.t) (s line : str) (lines : list str).

(** *** One reflow *)

Lemma replace_then_insert lines (r : nat) (x y : str) :
  r < length lines ->
  py_insert (r + 1) y (<[r := x]> lines)
  = take r lines ++ x :: y :: drop (S r) lines.
Proof.
  intros Hr. unfold py_insert. rewrite Nat.add_1_r.
  rewrite insert_take_drop by done.
  assert (Hlen : S r = length (take r lines ++ [x])).
  { rewrite length_app, length_take_le by lia. simpl. lia. }
  rewrite (cons_middle x), app_assoc.
  rewrite (take_app_length' _ _ _ Hlen), (drop_app_length' _ _ _ Hlen).
  by rewrite <- app_assoc.
Qed.

(** The reflow leaves the editor alone when the flag is up, when the
    cursor row is past the last line, or when the cursor line fits. *)
Lemma check_noop self :
  wrapping self = true
  ∨ cursor_line self = None
  ∨ (exists line, cursor_line self = Some line ∧ length line <= MAX_LINE_LENGTH) ->
  check_and_wrap_current_line self = self.
Proof.
  unfold check_and_wrap_current_line, cursor_line, lines_of.
  intros [->|[->|(line & -> & Hlen)]]; [done| |].
  - by destruct (wrapping self).
  - destruct (wrapping self); [done|].
    by rewrite (proj2 (Nat.ltb_ge _ _) Hlen).
Qed.

(** Otherwise the cursor line is replaced by its two parts and the cursor
    goes to the second of them. *)
Lemma check_wrap self line :
  lf_only (text self) = true ->
  wrapping self = false ->
  cursor_line self = Some line ->
  MAX_LINE_LENGTH < length line ->
  let r := (cursor_location self).1 in
  check_and_wrap_current_line self
  = {| text :=
         join NEWLINE
           (take r (lines_of self)
            ++ first_part line :: second_part line :: drop (S r) (lines_of self));
       cursor_location :=
         (r + 1, Z.to_nat (new_cursor_col line (cursor_location self).2));
       wrapping := false |}.
Proof.
  unfold check_and_wrap_current_line, cursor_line, lines_of.
  intros Hlf -> Hline Hlen. rewrite Hline.
  rewrite (proj2 (Nat.ltb_lt _ _) Hlen).
  unfold set_wrapping, set_cursor_location, load_text.
  cbn [text cursor_location wrapping fst snd].
  rewrite replace_then_insert by (by eapply lookup_lt_Some).
  by rewrite document_text_lf by (by apply new_text_lf).
Qed.

(** A reflow keeps an LF-only document LF-only. *)
Lemma check_lf_only self :
  lf_only (text self) = true ->
  lf_only (text (check_and_wrap_current_line self)) = true.
Proof.
  intros Hlf. destruct (wrapping self) eqn:Hw.
  { by rewrite check_noop by auto. }
  destruct (cursor_line self) as [line|] eqn:Hline.
  2:{ by rewrite check_noop by auto. }
  destruct (Nat.le_gt_cases (length line) MAX_LINE_LENGTH) as [Hs|Hl].
  { by rewrite check_noop by eauto. }
  rewrite (check_wrap self line Hlf Hw Hline Hl). cbn [text].
  by apply new_text_lf.
Qed.

Lemma lines_of_wrap self line :
  lf_only (text self) = true ->
  wrapping self = false ->
  cursor_line self = Some line ->
  MAX_LINE_LENGTH < length line ->
  let r := (cursor_location self).1 in
  lines_of (check_and_wrap_current_line self)
  = take r (lines_of self)
    ++ first_part line :: second_part line :: drop (S r) (lines_of self).
Proof.
  intros Hlf Hw Hline Hlen r. rewrite (check_wrap self line Hlf Hw Hline Hlen).
  unfold lines_of at 1. cbn [text]. apply split_join.
  - by destruct (take _ _).
  - pose proof (split_no_sep NEWLINE (text self)) as Hall.
    fold (lines_of self) in Hall.
    assert (Hl : NEWLINE ∉ line).
    { eapply Forall_forall in Hall; [done|]. by eapply list_elem_of_lookup_2. }
    apply Forall_app. split; [by apply Forall_take|].
    constructor; [by apply first_part_no_newline|].
    constructor; [by apply second_part_no_newline|].
    by apply Forall_drop.
Qed.

Lemma cursor_line_wrap self line :
  lf_only (text self) = true ->
  wrapping self = false ->
  cursor_line self = Some line ->
  MAX_LINE_LENGTH < length line ->
  cursor_line (check_and_wrap_current_line self) = Some (second_part line).
Proof.
  intros Hlf Hw Hline Hlen. unfold cursor_line at 1.
  rewrite (lines_of_wrap self line Hlf Hw Hline Hlen).
  rewrite (check_wrap self line Hlf Hw Hline Hlen). cbn [cursor_location fst].
  assert (Hr : (cursor_location self).1 < length (lines_of self)).
  { by eapply lookup_lt_Some. }
  rewrite (cons_middle (first_part line)), app_assoc.
  rewrite lookup_app_r; rewrite length_app, length_take_le by lia; simpl; [|lia].
  by replace ((cursor_location self).1 + 1 - ((cursor_location self).1 + 1)) with 0 by lia.
Qed.

End EditorReflow.

Section EditorClaims.

Import NoteEditor.

Local Open Scope nat_scope.

Implicit Types (self : NoteEditor.t) (s line : str) (lines : list str).

Lemma wrapping_after_wrap self line :
  lf_only (text self) = true ->
  wrapping self = false ->
  cursor_line self = Some line ->
  MAX_LINE_LENGTH < length line ->
  wrapping (check_and_wrap_current_line self) = false.
Proof. intros Hlf Hw Hline Hlen. by rewrite (check_wrap self line Hlf Hw Hline Hlen). Qed.

(** A range of indices holds no space, checked index by index. *)
Lemma no_space_in_range line (lo hi : nat) :
  forallb (fun j => negb (bool_decide (line !! j = Some SPACE)))
    (seq lo (hi - lo)) = true ->
  forall j, lo <= j -> j < hi -> line !! j ≠ Some SPACE.
Proof.
  intros Hall j Hlo Hhi. rewrite forallb_forall in Hall.
  specialize (Hall j). rewrite negb_true_iff, bool_decide_eq_false in Hall.
  apply Hall, in_seq. lia.
Qed.




(** C4, as the editor implements it.  In a document whose only line
    boundary is LF, a second reflow right after the first changes nothing
    exactly when the first one had nothing to do or left at most 80
    characters on the second line. *)
Theorem reflow_twice self
    (Hlf : lf_only (text self) = true) :
  check_and_wrap_current_line (check_and_wrap_current_line self)
  = check_and_wrap_current_line self
  <-> remainder_fits self = true.
Proof.
  unfold remainder_fits. destruct (wrapping self) eqn:Hw; simpl.
  { split; [done|]. intros _. rewrite !(check_noop self); auto. }
  destruct (cursor_line self) as [line|] eqn:Hline.
  2:{ split; [done|]. intros _. rewrite !(check_noop self); auto. }
  destruct (Nat.leb_spec (length line) MAX_LINE_LENGTH) as [Hshort|Hlong]; simpl.
  { split; [done|]. intros _. rewrite !(check_noop self); eauto. }
  pose proof (cursor_line_wrap self line Hlf Hw Hline Hlong) as Hcl.
  pose proof (wrapping_after_wrap self line Hlf Hw Hline Hlong) as Hw'.
  pose proof (check_lf_only self Hlf) as Hlf'.
  destruct (Nat.leb_spec (length (second_part line)) MAX_LINE_LENGTH)
    as [Hfit|Hover].
  - split; [done|]. intros _. apply check_noop. eauto.
  - split; [|done]. intros Heq. exfalso.
    rewrite (check_wrap _ _ Hlf' Hw' Hcl Hover) in Heq.
    apply (f_equal (fun b => (cursor_location b).1)) in Heq.
    cbn [cursor_location fst] in Heq. lia.
Qed.

Lemma reflow_twice_witness :
  let self :=
    {| text := of_string "above" ++ [NEWLINE] ++ replicate 85 97%N;
       cursor_location := (1, 85); wrapping := false |} in
  check_and_wrap_current_line (check_and_wrap_current_line self)
  = check_and_wrap_current_line self.
Proof.
  intros self. apply (proj2 (reflow_twice self eq_refl)). reflexivity.
Defined.

(** C4 as stated fails: 170 letters are cut into 80 and 90, the cursor
    sits on the 90, and the next reflow cuts again. *)
Lemma second_reflow_cuts_again :
  let self :=
    {| text := replicate 170 97%N; cursor_location := (0, 170);
       wrapping := false |} in
  length <$> lines_of (check_and_wrap_current_line self) = [80; 90]
  ∧ length <$> lines_of (check_and_wrap_current_line
                           (check_and_wrap_current_line self)) = [80; 80; 10]
  ∧ check_and_wrap_current_line (check_and_wrap_current_line self)
    ≠ check_and_wrap_current_line self.
Proof.
  split_and!; [reflexivity|reflexivity|].
  intros H. apply (f_equal cursor_location) in H. vm_compute in H. discriminate H.
Qed.

End EditorClaims.

Section EditorSplit.

Import NoteEditor.

Local Open Scope nat_scope.

Implicit Types (self : NoteEditor.t) (s line : str) (lines : list str).

(** C5, as the editor implements it.  In a document whose only line
    boundary is LF: when the over-long cursor line has
    a space below column 80 and [p] is the rightmost such index, the line
    is replaced by [line[:p]] without its trailing whitespace, followed by
    [line[p:]] without its leading whitespace, as a new line right after.
    The first of the two has at most 80 characters and does not end in
    whitespace; the second does not start with whitespace. *)
Theorem reflow_at_space self line (p : nat)
    (Hlf : lf_only (text self) = true)
    (Hw : wrapping self = false)
    (Hline : cursor_line self = Some line)
    (Hlen : MAX_LINE_LENGTH < length line)
    (Hp : rightmost_space_below MAX_LINE_LENGTH line p) :
  let r := (cursor_location self).1 in
  let first := rstrip (take p line) in
  let second := lstrip (drop p line) in
  lines_of (check_and_wrap_current_line self)
  = take r (lines_of self) ++ first :: second :: drop (S r) (lines_of self)
  ∧ length first <= MAX_LINE_LENGTH
  ∧ (forall c, last first = Some c -> py_isspace c = false)
  ∧ last first ≠ Some SPACE
  ∧ (forall c, head second = Some c -> py_isspace c = false)
  ∧ head second ≠ Some SPACE.
Proof.
  intros r first second.
  pose proof (wrap_point_at line p Hp) as Hwp.
  assert (Hf : first_part line = first).
  { unfold first_part. by rewrite Hwp, Nat2Z.id. }
  assert (Hs : second_part line = second).
  { unfold second_part. by rewrite Hwp, Nat2Z.id. }
  split_and!.
  - rewrite (lines_of_wrap self line Hlf Hw Hline Hlen). by rewrite Hf, Hs.
  - pose proof (first_part_length line) as H. rewrite Hf, Hwp in H.
    destruct Hp as [Hp _]. lia.
  - apply rstrip_last.
  - intros H. by apply rstrip_last in H.
  - apply lstrip_head.
  - intros H. by apply lstrip_head in H.
Qed.

Lemma reflow_at_space_witness :
  let line :=
    of_string "the quick brown fox jumps over the lazy dog and then some more words here ok yes indeed" in
  let self := {| text := line; cursor_location := (0, 87); wrapping := false |} in
  lines_of (check_and_wrap_current_line self)
  = [of_string "the quick brown fox jumps over the lazy dog and then some more words here ok"; of_string "yes indeed"].
Proof.
  intros line self.
  destruct (reflow_at_space self line 76) as [Hlines _].
  - reflexivity.
  - reflexivity.
  - reflexivity.
  - vm_compute. lia.
  - split_and!; [vm_compute; lia|reflexivity|].
    unfold MAX_LINE_LENGTH. intros j Hlo Hhi.
    apply (no_space_in_range line 77 80); [reflexivity|lia|lia].
  - exact Hlines.
Defined.

(** C5 as stated fails on the column and on the trimming.  With spaces at
    columns 50 and 80 the rightmost space at or before column 80 is the
    one at 80, but the line is cut at 50.  With a tab in front of the
    space at which the line is cut, the tab is trimmed along with the
    spaces. *)
Lemma reflow_space_at_80 :
  (let line :=
     replicate 50 97%N ++ [SPACE] ++ replicate 29 98%N ++ [SPACE]
     ++ replicate 4 99%N in
   let self := {| text := line; cursor_location := (0, 85); wrapping := false |} in
   cursor_line self = Some line
   ∧ rightmost_space_upto MAX_LINE_LENGTH line 80
   ∧ lines_of (check_and_wrap_current_line self)
     = [replicate 50 97%N; replicate 29 98%N ++ [SPACE] ++ replicate 4 99%N]
   ∧ lines_of (check_and_wrap_current_line self)
     ≠ [trim_trailing_spaces (take 80 line); trim_leading_spaces (drop 80 line)])
  ∧ (let line :=
       replicate 49 97%N ++ [9%N; SPACE] ++ replicate 40 98%N in
     let self := {| text := line; cursor_location := (0, 91); wrapping := false |} in
     cursor_line self = Some line
     ∧ rightmost_space_upto MAX_LINE_LENGTH line 50
     ∧ rightmost_space_below MAX_LINE_LENGTH line 50
     ∧ lines_of (check_and_wrap_current_line self)
       = [replicate 49 97%N; replicate 40 98%N]
     ∧ lines_of (check_and_wrap_current_line self)
       ≠ [trim_trailing_spaces (take 50 line); trim_leading_spaces (drop 50 line)]).
Proof.
  split.
  - split_and!; [reflexivity| |reflexivity|vm_compute; discriminate].
    split_and!; [done|reflexivity|]. unfold MAX_LINE_LENGTH. intros j Hlo Hhi. lia.
  - split_and!; [reflexivity| | |reflexivity|vm_compute; discriminate].
    + split_and!; [vm_compute; lia|reflexivity|].
      unfold MAX_LINE_LENGTH. intros j Hlo Hhi.
      eapply (no_space_in_range _ 51 81); [reflexivity|lia|lia].
    + split_and!; [vm_compute; lia|reflexivity|].
      unfold MAX_LINE_LENGTH. intros j Hlo Hhi.
      eapply (no_space_in_range _ 51 80); [reflexivity|lia|lia].
Qed.




(** Why the statements above ask for an LF-only document.  With CR LF
    line ends every row but the last ends in a carriage return once the
    widget has rebuilt the text, so the row left by the cut has 81
    characters.  A lone carriage return inside the remainder is a line
    boundary for the widget: the remainder of 101 characters comes back
    as two rows of 50, and the next reflow has nothing to cut. *)
Example crlf_rows_after_reflow :
  let self :=
    {| text := of_string "above" ++ [CARRIAGE_RETURN; NEWLINE]
               ++ replicate 85 97%N ++ [CARRIAGE_RETURN; NEWLINE]
               ++ of_string "below";
       cursor_location := (1, 85); wrapping := false |} in
  length <$> lines_of (check_and_wrap_current_line self) = [6; 81; 6; 5]
  ∧ cursor_location (check_and_wrap_current_line self) = (2, 5).
Proof. split; reflexivity. Qed.

Example lone_carriage_return_is_a_boundary :
  let self :=
    {| text := replicate 130 120%N ++ [CARRIAGE_RETURN] ++ replicate 50 121%N;
       cursor_location := (0, 181); wrapping := false |} in
  remainder_fits self = false
  ∧ length <$> lines_of (check_and_wrap_current_line self) = [80; 50; 50]
  ∧ check_and_wrap_current_line (check_and_wrap_current_line self)
    = check_and_wrap_current_line self.
Proof. split_and!; reflexivity. Qed.

End EditorSplit.

(** ** More on the note store *)

Section NoteStoreMore.

Import NoteData.

Implicit Types (self : NoteData.t) (ns : list Note) (fs : list string).

(** Every call either leaves the object as it was or ends with [save]. *)
Lemma run_op_saved op self :
  run_op op self = self
  ∨ exists d ws, run_op op self = {| data := d; written := d :: ws |}.
Proof.
  destruct op as [ti c f n1 n2|i ti c now|i|f|f]; simpl.
  - right. by eexists _, _.
  - unfold update_note.
    destruct (update_loop i ti c now (notes (data self))) as [[m ns']|];
      [right; by eexists _, _|by left].
  - right. by eexists _, _.
  - unfold add_folder.
    destruct (negb (bool_decide (f = ""))
              && negb (bool_decide (f ∈ folders (data self))));
      [right; by eexists _, _|by left].
  - unfold delete_folder. case_bool_decide; [by left|].
    case_bool_decide; [right; by eexists _, _|by left].
Qed.

(** Restarting at any point of a session brings back the state in memory:
    loading what is on disk gives the current document. *)
Theorem reload_restores_data (notes_file : option Data) (ops : list Op) :
  let s := run ops (init notes_file) in
  load (on_disk notes_file s) = data s.
Proof.
  simpl.
  assert (H : forall self,
             load (on_disk notes_file self) = data self ->
             load (on_disk notes_file (run ops self)) = data (run ops self)).
  { induction ops as [|op ops IH]; intros self Hs; [done|].
    simpl. apply IH.
    destruct (run_op_saved op self) as [->|(d & ws & ->)]; done. }
  apply H. done.
Qed.

(** No call takes ["All Notes"] out of the folder list. *)
Theorem all_notes_folder_stays (ops : list Op) self
    (Hin : "All Notes" ∈ folders (data self)) :
  "All Notes" ∈ folders (data (run ops self)).
Proof.
  revert self Hin. induction ops as [|op ops IH]; intros self Hin; [done|].
  simpl. apply IH.
  destruct op as [ti c f n1 n2|i ti c now|i|f|f]; simpl; try done.
  - unfold update_note.
    by destruct (update_loop i ti c now (notes (data self))) as [[m ns']|].
  - unfold add_folder.
    destruct (negb (bool_decide (f = ""))
              && negb (bool_decide (f ∈ folders (data self)))); simpl; [|done].
    apply elem_of_app. by left.
  - unfold delete_folder. case_bool_decide as Hf; [done|].
    case_bool_decide; simpl; [|done].
    apply elem_of_py_remove_ne; [congruence|done].
Qed.

Lemma all_notes_folder_stays_witness :
  "All Notes"
  ∈ folders (data (run [DeleteFolder "All Notes"; DeleteFolder "Work";
                        DeleteFolder "Personal"; AddFolder "Ideas"]
                     (init None))).
Proof. apply all_notes_folder_stays. by_computing. Defined.

Lemma py_remove_NoDup_keeps x fs : NoDup fs -> NoDup (py_remove x fs).
Proof.
  induction 1 as [|y fs Hy Hnd IH]; simpl; [constructor|].
  case_bool_decide; [done|]. constructor; [|done].
  intros Hin. apply Hy. clear -Hin.
  induction fs as [|z fs IH]; simpl in *; [done|].
  case_bool_decide; [by right|].
  apply elem_of_cons in Hin as [->|Hin]; [by left|right; auto].
Qed.

(** Folder names stay unique. *)
Theorem folder_names_stay_unique (ops : list Op) self
    (Hnd : NoDup (folders (data self))) :
  NoDup (folders (data (run ops self))).
Proof.
  revert self Hnd. induction ops as [|op ops IH]; intros self Hnd; [done|].
  simpl. apply IH.
  destruct op as [ti c f n1 n2|i ti c now|i|f|f]; simpl; try done.
  - unfold update_note.
    by destruct (update_loop i ti c now (notes (data self))) as [[m ns']|].
  - unfold add_folder.
    destruct (bool_decide (f = "")); simpl; [done|].
    case_bool_decide as Hin; simpl; [done|].
    apply NoDup_app. split_and!; [done| |apply NoDup_singleton].
    intros x Hx Hx'. apply list_elem_of_singleton in Hx'. by subst.
  - unfold delete_folder. case_bool_decide; [done|].
    case_bool_decide; simpl; [|done]. by apply py_remove_NoDup_keeps.
Qed.

Lemma folder_names_stay_unique_witness :
  NoDup (folders (data (run [AddFolder "Work"; AddFolder "Ideas";
                             DeleteFolder "Work"; AddFolder "Work"]
                          (init None)))).
Proof. apply folder_names_stay_unique. by_computing. Defined.

End NoteStoreMore.

Section NoteStoreNotes.

Import NoteData.

Implicit Types (self : NoteData.t) (ns : list Note) (fs : list string).

(** [delete_note] drops every note carrying the id, keeps the others in
    their order, leaves the folders alone and writes the result. *)
Theorem delete_note_removes_all (note_id : Z) self :
  let s := delete_note note_id self in
  (note_id ∉ ids s)
  ∧ (forall n, n ∈ notes (data s) <-> n ∈ notes (data self) ∧ id n ≠ note_id)
  ∧ notes (data s) `sublist_of` notes (data self)
  ∧ folders (data s) = folders (data self)
  ∧ written s = data s :: written self.
Proof.
  simpl. split_and!; try done.
  - unfold ids. simpl. intros H.
    apply list_elem_of_fmap in H as (n & Hid & Hn).
    apply list_elem_of_In, filter_In in Hn as [_ Hn].
    apply negb_true_iff, bool_decide_eq_false in Hn. by subst.
  - intros n. rewrite list_elem_of_In, filter_In, <- list_elem_of_In.
    by rewrite negb_true_iff, bool_decide_eq_false.
  - induction (notes (data self)) as [|n ns IH]; simpl; [done|].
    destruct (negb (bool_decide (id n = note_id))); by constructor.
Qed.

Lemma filter_all ns (note_id : Z) :
  Forall (fun n => id n ≠ note_id) ns ->
  List.filter (fun n => negb (bool_decide (id n = note_id))) ns = ns.
Proof.
  induction 1 as [|n ns Hn _ IH]; simpl; [done|].
  rewrite bool_decide_eq_false_2 by done. simpl. by rewrite IH.
Qed.

(** Deleting an id no note has changes nothing in memory, but the file is
    rewritten all the same. *)
Theorem delete_note_absent (note_id : Z) self
    (Habsent : note_id ∉ ids self) :
  delete_note note_id self
  = {| data := data self; written := data self :: written self |}.
Proof.
  unfold delete_note, save, set_notes. simpl.
  rewrite filter_all; [by destruct self as [[??]?]|].
  apply Forall_forall. intros n Hn <-. apply Habsent.
  unfold ids. by apply list_elem_of_fmap_2.
Qed.

Lemma delete_note_absent_witness :
  delete_note 5 (init None)
  = {| data := default_data; written := [default_data] |}.
Proof.
  apply (delete_note_absent 5 (init None)). intros H. by_computing_not H.
Defined.

(** A new note shows up last in the view of its folder; the view of any
    other real folder is as before. *)
Theorem add_note_shows_in_folder (ti c f n1 n2 g : string) self :
  let '(note, s) := add_note ti c f n1 n2 self in
  get_notes_by_folder f s = get_notes_by_folder f self ++ [note]
  ∧ get_notes_by_folder "All Notes" s = get_notes_by_folder "All Notes" self ++ [note]
  ∧ (g ≠ f -> g ≠ "All Notes" ->
     get_notes_by_folder g s = get_notes_by_folder g self).
Proof.
  simpl. unfold get_notes_by_folder. simpl. split_and!.
  - case_bool_decide; [done|].
    rewrite List.filter_app. simpl. by rewrite bool_decide_eq_true_2.
  - done.
  - intros Hg Hall. rewrite bool_decide_eq_false_2 by done.
    rewrite List.filter_app. simpl.
    rewrite bool_decide_eq_false_2 by done. by rewrite app_nil_r.
Qed.

(** [update_note] never adds, drops, renumbers, moves or re-dates the
    creation of a note, and never touches the folder list. *)
Theorem update_note_keeps_shape (note_id : Z) (ti c now : string) self :
  let s := (update_note note_id ti c now self).2 in
  id <$> notes (data s) = id <$> notes (data self)
  ∧ folder <$> notes (data s) = folder <$> notes (data self)
  ∧ created <$> notes (data s) = created <$> notes (data self)
  ∧ length (notes (data s)) = length (notes (data self))
  ∧ folders (data s) = folders (data self).
Proof.
  simpl. unfold update_note.
  destruct (update_loop note_id ti c now (notes (data self)))
    as [[found ns']|] eqn:E; simpl; [|done].
  pose proof (update_loop_shape _ _ _ _ _ _ _ E) as [Hid Hf].
  split_and!; [done|done| | |done].
  - apply update_loop_Some in E as (i & n & Hi & _ & _ & -> & ->).
    apply list_eq. intros j. rewrite !list_lookup_fmap.
    destruct (decide (i = j)) as [->|Hne].
    + rewrite list_lookup_insert_eq by (by eapply lookup_lt_Some).
      by rewrite Hi.
    + by rewrite list_lookup_insert_ne.
  - rewrite <- (length_fmap id ns'), Hid. by rewrite length_fmap.
Qed.

Lemma py_or_nonempty a b : b ≠ "" -> py_or a b ≠ "".
Proof. unfold py_or. by case_bool_decide. Qed.

(** No note ever has an empty title: [add_note] and [update_note] put
    ["Untitled Note"] in its place. *)
Theorem titles_never_empty (ops : list Op) self
    (Htitled : all_titled self) :
  all_titled (run ops self).
Proof.
  revert self Htitled. induction ops as [|op ops IH]; intros self Ht; [done|].
  simpl. apply IH. unfold all_titled in *.
  destruct op as [ti c f n1 n2|i ti c now|i|f|f]; simpl.
  - apply Forall_app. split; [done|]. constructor; [|constructor].
    simpl. by apply py_or_nonempty.
  - unfold update_note.
    destruct (update_loop i ti c now (notes (data self)))
      as [[found ns']|] eqn:E; simpl; [|done].
    apply update_loop_Some in E as (j & n & Hj & _ & _ & -> & ->).
    apply Forall_insert; [done|]. simpl. by apply py_or_nonempty.
  - apply Forall_forall. intros n Hn.
    apply list_elem_of_In, filter_In in Hn as [Hn _].
    apply list_elem_of_In in Hn. by eapply Forall_forall in Ht.
  - unfold add_folder.
    by destruct (negb (bool_decide (f = ""))
                 && negb (bool_decide (f ∈ folders (data self)))).
  - unfold delete_folder. case_bool_decide; [done|].
    case_bool_decide; simpl; [|done].
    unfold move_notes. apply Forall_fmap.
    eapply Forall_impl; [done|]. intros n Hn. simpl. by case_bool_decide.
Qed.

Lemma titles_never_empty_witness :
  all_titled (run [AddNote "" "milk" "Work" "t1" "t1";
                   UpdateNote 1 "" "eggs" "t2"] (init None)).
Proof. apply titles_never_empty. constructor. Defined.

End NoteStoreNotes.

Section NoteStoreFolders.

Import NoteData.

Implicit Types (self : NoteData.t) (ns : list Note) (fs : list string).

(** With unique folder names, a second [delete_folder] of the same name
    is refused and changes nothing. *)
Theorem delete_folder_twice (folder_name : string) self
    (Hnd : NoDup (folders (data self))) :
  let s := (delete_folder folder_name self).2 in
  delete_folder folder_name s = (false, s).
Proof.
  simpl. destruct (decide (folder_name = "All Notes")) as [->|Hall]; [done|].
  destruct (decide (folder_name ∈ folders (data self))) as [Hin|Hin].
  - assert (E : delete_folder folder_name self
                = (true,
                   save
                     (set_folders (py_remove folder_name (folders (data self)))
                        (set_notes
                           (move_notes folder_name (notes (data self))) self)))).
    { unfold delete_folder.
      by rewrite bool_decide_eq_false_2, bool_decide_eq_true_2. }
    rewrite E. simpl. unfold delete_folder.
    rewrite bool_decide_eq_false_2 by done. simpl.
    rewrite bool_decide_eq_false_2; [done|]. by apply py_remove_NoDup.
  - assert (E : delete_folder folder_name self = (false, self)).
    { unfold delete_folder.
      by rewrite bool_decide_eq_false_2, bool_decide_eq_false_2. }
    rewrite E. exact E.
Qed.

Lemma delete_folder_twice_witness :
  delete_folder "Work" (delete_folder "Work" (init None)).2
  = (false, (delete_folder "Work" (init None)).2).
Proof. apply (delete_folder_twice "Work" (init None)). by_computing. Defined.

Lemma py_remove_last x fs : x ∉ fs -> py_remove x (fs ++ [x]) = fs.
Proof.
  induction fs as [|y fs IH]; simpl.
  - intros _. by rewrite bool_decide_eq_true_2.
  - rewrite not_elem_of_cons. intros [Hne Hfs].
    rewrite bool_decide_eq_false_2 by done. by rewrite IH.
Qed.

Lemma move_notes_none folder_name ns :
  Forall (fun n => folder n ≠ folder_name) ns -> move_notes folder_name ns = ns.
Proof.
  induction 1 as [|n ns Hn _ IH]; [done|].
  simpl. fold (move_notes folder_name ns). rewrite IH.
  by rewrite bool_decide_eq_false_2.
Qed.

(** Creating a folder and deleting it again, while no note names it,
    brings the document back. *)
Theorem add_then_delete_folder (folder_name : string) self
    (Hname : folder_name ≠ "")
    (Hvirtual : folder_name ≠ "All Notes")
    (Hnew : folder_name ∉ folders (data self))
    (Hunused : Forall (fun n => folder n ≠ folder_name) (notes (data self))) :
  let s := (add_folder folder_name self).2 in
  (add_folder folder_name self).1 = true
  ∧ (delete_folder folder_name s).1 = true
  ∧ data (delete_folder folder_name s).2 = data self.
Proof.
  simpl. unfold add_folder. rewrite !bool_decide_eq_false_2 by done. simpl.
  unfold delete_folder. rewrite bool_decide_eq_false_2 by done. simpl.
  rewrite bool_decide_eq_true_2 by (apply elem_of_app; right; by left).
  simpl. split_and!; [done|done|].
  rewrite py_remove_last, move_notes_none by done. by destruct (data self).
Qed.

Lemma add_then_delete_folder_witness :
  data (delete_folder "Ideas" (add_folder "Ideas" (init None)).2).2
  = default_data.
Proof.
  destruct (add_then_delete_folder "Ideas" (init None)) as (_ & _ & H);
    [done|done| |constructor|exact H].
  intros H. by_computing_not H.
Defined.

(** After an accepted [delete_folder] of a folder other than
    ["Personal"], the view of that folder is empty.  The view of
    ["Personal"] is made of the notes that were in ["Personal"] or in the
    deleted folder, in their old order, the latter re-filed and otherwise
    untouched; so it has grown by the notes of the deleted folder.  The
    full list has every note in its place, changed in nothing but the
    folder of the re-filed ones. *)
Theorem delete_folder_moves_notes (folder_name : string) self
    (Hvirtual : folder_name ≠ "All Notes")
    (Hfallback : folder_name ≠ "Personal")
    (Hin : folder_name ∈ folders (data self)) :
  let s := (delete_folder folder_name self).2 in
  let refile n :=
    mkNote (id n) (title n) (content n) "Personal" (created n) (modified n) in
  get_notes_by_folder folder_name s = []
  ∧ get_notes_by_folder "Personal" s
    = List.map refile
        (List.filter
           (fun n => bool_decide (folder n = "Personal")
                     || bool_decide (folder n = folder_name))
           (notes (data self)))
  ∧ get_notes_by_folder "All Notes" s
    = List.map
        (fun n => if bool_decide (folder n = folder_name) then refile n else n)
        (notes (data self))
  ∧ length (get_notes_by_folder "Personal" s)
    = (length (get_notes_by_folder "Personal" self)
       + length (get_notes_by_folder folder_name self))%nat
  ∧ length (get_notes_by_folder "All Notes" s)
    = length (get_notes_by_folder "All Notes" self)
  ∧ id <$> notes (data s) = id <$> notes (data self).
Proof.
  simpl. unfold delete_folder.
  rewrite bool_decide_eq_false_2, bool_decide_eq_true_2 by done. simpl.
  unfold get_notes_by_folder. simpl.
  rewrite (bool_decide_eq_false_2 (folder_name = "All Notes")) by done.
  split_and!.
  - induction (notes (data self)) as [|n ns IH]; [done|].
    simpl. fold (move_notes folder_name ns).
    destruct (decide (folder n = folder_name)) as [Hf|Hf].
    + rewrite (bool_decide_eq_true_2 _ Hf). simpl.
      by rewrite (bool_decide_eq_false_2 ("Personal" = folder_name)).
    + rewrite !(bool_decide_eq_false_2 _ Hf). done.
  - induction (notes (data self)) as [|n ns IH]; [done|].
    simpl. fold (move_notes folder_name ns).
    destruct (decide (folder n = folder_name)) as [Hf|Hf].
    + rewrite (bool_decide_eq_true_2 _ Hf). rewrite orb_true_r. simpl.
      by rewrite IH.
    + rewrite (bool_decide_eq_false_2 _ Hf). rewrite orb_false_r.
      destruct (decide (folder n = "Personal")) as [Hp|Hp].
      * rewrite (bool_decide_eq_true_2 _ Hp). simpl. rewrite IH.
        f_equal. destruct n; simpl in *. by subst.
      * rewrite (bool_decide_eq_false_2 _ Hp). done.
  - done.
  - induction (notes (data self)) as [|n ns IH]; [done|].
    simpl. fold (move_notes folder_name ns).
    destruct (decide (folder n = folder_name)) as [Hf|Hf].
    + rewrite (bool_decide_eq_true_2 _ Hf). simpl.
      rewrite (bool_decide_eq_false_2 (folder n = "Personal")) by congruence.
      simpl. rewrite IH. lia.
    + rewrite (bool_decide_eq_false_2 _ Hf).
      destruct (bool_decide (folder n = "Personal")); simpl; rewrite IH; lia.
  - unfold move_notes. by rewrite length_fmap.
  - unfold move_notes. rewrite <- list_fmap_compose.
    apply list_fmap_ext. intros _ n _. simpl. by case_bool_decide.
Qed.

Lemma delete_folder_moves_notes_witness :
  let self := run [AddNote "a" "" "Work" "t1" "t1";
                   AddNote "b" "" "Personal" "t2" "t2";
                   AddNote "c" "" "Work" "t3" "t3"] (init None) in
  let s := (delete_folder "Work" self).2 in
  get_notes_by_folder "Work" s = []
  ∧ length (get_notes_by_folder "Personal" s) = 3%nat.
Proof.
  intros self s.
  destruct (delete_folder_moves_notes "Work" self) as (H1 & _ & _ & H2 & _);
    [done|done|by_computing|].
  split; [exact H1|]. etrans; [exact H2|reflexivity].
Defined.

End NoteStoreFolders.

Section NoteStoreIds.

Import NoteData.

Implicit Types (self : NoteData.t) (ns : list Note).

Lemma length_filter_one (i : Z) (l : list Z) :
  NoDup l -> i ∈ l ->
  S (length (List.filter (fun x => negb (bool_decide (x = i))) l)) = length l.
Proof.
  induction 1 as [|y l Hy Hnd IH]; intros Hin; [by apply elem_of_nil in Hin|].
  simpl. destruct (decide (y = i)) as [->|Hne].
  - rewrite bool_decide_eq_true_2 by done. simpl. by rewrite filter_absent.
  - rewrite bool_decide_eq_false_2 by done. simpl.
    apply elem_of_cons in Hin as [->|Hin]; [done|]. by rewrite IH.
Qed.

(** When the ids are [1..n] and a note other than the last one is
    deleted, the id handed out next is already in use. *)
Theorem next_id_collides (note_id : Z) (ti c f n1 n2 : string) self
    (Hdense : dense_ids self)
    (Hin : note_id ∈ ids self)
    (Hnot_last : note_id ≠ Z.of_nat (length (notes (data self)))) :
  let s := delete_note note_id self in
  id (add_note ti c f n1 n2 s).1 ∈ ids s.
Proof.
  simpl. unfold ids in *. simpl. unfold dense_ids, ids in Hdense.
  set (n := length (notes (data self))) in *.
  assert (Hnd : NoDup (id <$> notes (data self))).
  { rewrite Hdense. apply NoDup_fmap; [apply _|apply NoDup_seq]. }
  pose proof (length_filter_one note_id _ Hnd Hin) as Hlen.
  rewrite <- filter_ids, !length_fmap in Hlen. fold n in Hlen.
  rewrite filter_ids.
  apply list_elem_of_In, filter_In. split.
  - apply list_elem_of_In. rewrite Hdense.
    apply list_elem_of_fmap. exists n. split; [lia|].
    apply elem_of_seq. lia.
  - apply negb_true_iff, bool_decide_eq_false. lia.
Qed.

Lemma next_id_collides_witness :
  let self := run [AddNote "a" "" "Work" "t1" "t1";
                   AddNote "b" "" "Work" "t2" "t2";
                   AddNote "c" "" "Work" "t3" "t3"] (init None) in
  id (add_note "d" "" "Work" "t4" "t4" (delete_note 2 self)).1
  ∈ ids (delete_note 2 self).
Proof.
  intros self. apply (next_id_collides 2 "d" "" "Work" "t4" "t4" self).
  - reflexivity.
  - by_computing.
  - vm_compute. discriminate.
Defined.

End NoteStoreIds.

(** ** More on the password gate *)

Section PasswordGateMore.

Import PasswordManager.

Variable sha256_hexdigest : string -> string.

(** While the gate is off, a password is accepted exactly when the
    credential file exists: on a fresh install nothing verifies, although
    the application asks for no password. *)
Theorem verify_when_disabled (password : string) (auth_file : AuthFile)
    (Hoff : is_password_enabled auth_file = false) :
  verify_password sha256_hexdigest password auth_file
  = password_exists auth_file.
Proof.
  destruct auth_file as [data|]; [|done].
  simpl in *. by rewrite Hoff.
Qed.

(** [set_password] and [skip_password] overwrite whatever was configured
    before: the last of them decides. *)
Theorem last_setup_call_decides (p q : string) (auth_file : AuthFile) :
  verify_password sha256_hexdigest q
    (skip_password (set_password sha256_hexdigest p auth_file)) = true
  ∧ (verify_password sha256_hexdigest q
       (set_password sha256_hexdigest p (skip_password auth_file)) = true
     <-> sha256_hexdigest q = sha256_hexdigest p)
  ∧ password_exists (set_password sha256_hexdigest p auth_file) = true
  ∧ password_exists (skip_password auth_file) = true.
Proof.
  split_and!; try done. simpl.
  rewrite bool_decide_eq_true. unfold hash_password. split; congruence.
Qed.

(** The password screen: an empty entry is turned away before any
    comparison, so it never unlocks, not even when the stored hash is the
    hash of the empty string or the gate is off; any other entry unlocks
    exactly when [verify_password] accepts it. *)
Theorem password_screen_unlocks (password : string) (auth_file : AuthFile) :
  PasswordScreen.on_input_submitted sha256_hexdigest "" auth_file
  = PasswordScreen.EmptyPassword
  ∧ (PasswordScreen.on_input_submitted sha256_hexdigest password auth_file
     = PasswordScreen.Dismissed true
     <-> password ≠ ""
         ∧ verify_password sha256_hexdigest password auth_file = true)
  ∧ PasswordScreen.on_input_submitted sha256_hexdigest password auth_file
    ≠ PasswordScreen.Dismissed false.
Proof.
  unfold PasswordScreen.on_input_submitted. split_and!; [done| |].
  - case_bool_decide as He; [split; [done|tauto]|].
    destruct (verify_password sha256_hexdigest password auth_file);
      split; try done. by intros [_ ?].
  - case_bool_decide; [done|].
    by destruct (verify_password sha256_hexdigest password auth_file).
Qed.

End PasswordGateMore.

Lemma verify_when_disabled_witness :
  PasswordManager.verify_password (fun s => s) "anything" None = false
  ∧ PasswordManager.verify_password (fun s => s) "anything"
      (PasswordManager.skip_password None) = true.
Proof.
  split.
  - by rewrite (verify_when_disabled (fun s => s) "anything" None).
  - by rewrite (verify_when_disabled (fun s => s) "anything"
                  (PasswordManager.skip_password None)).
Defined.

(** ** More on the wrapping editor *)

Section EditorMore.

Import NoteEditor.

Local Open Scope nat_scope.

Implicit Types (self : NoteEditor.t) (s line : str) (lines : list str).

Lemma rstrip_prefix s :
  exists ws, s = rstrip s ++ ws ∧ Forall (fun c => py_isspace c = true) ws.
Proof.
  destruct (lstrip_suffix (reverse s)) as (ws & Hs & Hws).
  exists (reverse ws). split; [|by apply Forall_reverse].
  unfold rstrip. rewrite <- reverse_app, <- Hs. by rewrite reverse_involutive.
Qed.

Lemma rstrip_fixed s :
  (forall c, last s = Some c -> py_isspace c = false) -> rstrip s = s.
Proof.
  intros H. unfold rstrip. rewrite lstrip_fixed; [apply reverse_involutive|].
  intros c. rewrite head_reverse. apply H.
Qed.

Lemma parts_of_line line :
  exists ws,
    line = first_part line ++ ws ++ second_part line
    ∧ Forall (fun c => py_isspace c = true) ws.
Proof.
  unfold first_part, second_part. set (p := Z.to_nat (wrap_point line)).
  destruct (rstrip_prefix (take p line)) as (ws1 & H1 & Hws1).
  destruct (lstrip_suffix (drop p line)) as (ws2 & H2 & Hws2).
  exists (ws1 ++ ws2). split; [|by apply Forall_app].
  rewrite <- (take_drop p line) at 1. rewrite H1 at 1. rewrite H2 at 1.
  by rewrite <- !app_assoc.
Qed.

Lemma second_part_shorter line :
  MAX_LINE_LENGTH < length line -> length (second_part line) < length line.
Proof.
  intros Hlen. unfold second_part.
  destruct (wrap_point_cases line) as [[_ ->]|(p & (Hp & Hsp & _) & ->)];
    rewrite Nat2Z.id.
  - pose proof (lstrip_length (drop MAX_LINE_LENGTH line)) as H.
    rewrite length_drop in H. unfold MAX_LINE_LENGTH in *. lia.
  - destruct (drop p line) as [|c rest] eqn:E.
    + apply (f_equal length) in E. rewrite length_drop in E.
      simpl in E. unfold MAX_LINE_LENGTH in *. lia.
    + assert (c = SPACE) as ->.
      { pose proof (lookup_drop line p 0) as H. rewrite E, Nat.add_0_r in H.
        simpl in H. congruence. }
      simpl. pose proof (lstrip_length rest) as H.
      apply (f_equal length) in E. rewrite length_drop in E. simpl in E. lia.
Qed.

Lemma row_after_wrap self line :
  lf_only (text self) = true ->
  wrapping self = false ->
  cursor_line self = Some line ->
  MAX_LINE_LENGTH < length line ->
  lines_of (check_and_wrap_current_line self) !! (cursor_location self).1
  = Some (first_part line).
Proof.
  intros Hlf Hw Hline Hlen. rewrite (lines_of_wrap self line Hlf Hw Hline Hlen).
  assert (Hr : (cursor_location self).1 < length (lines_of self)).
  { by eapply lookup_lt_Some. }
  rewrite lookup_app_r; rewrite length_take_le by lia; [|lia].
  by rewrite Nat.sub_diag.
Qed.

Lemma cursor_row_after_wrap self line :
  lf_only (text self) = true ->
  wrapping self = false ->
  cursor_line self = Some line ->
  MAX_LINE_LENGTH < length line ->
  (cursor_location (check_and_wrap_current_line self)).1
  = (cursor_location self).1 + 1.
Proof. intros Hlf Hw Hline Hlen. by rewrite (check_wrap self line Hlf Hw Hline Hlen). Qed.

(** In a document whose only line boundary is LF, a reflow only removes
    whitespace: the old cursor line is the new line, then whitespace,
    then the line inserted after it. *)
Theorem reflow_drops_only_whitespace self line
    (Hlf : lf_only (text self) = true)
    (Hw : wrapping self = false)
    (Hline : cursor_line self = Some line)
    (Hlen : MAX_LINE_LENGTH < length line) :
  let r := (cursor_location self).1 in
  exists first ws second,
    lines_of (check_and_wrap_current_line self) !! r = Some first
    ∧ lines_of (check_and_wrap_current_line self) !! (r + 1) = Some second
    ∧ line = first ++ ws ++ second
    ∧ Forall (fun c => py_isspace c = true) ws.
Proof.
  intros r. destruct (parts_of_line line) as (ws & Hparts & Hws).
  exists (first_part line), ws, (second_part line). split_and!; try done.
  - by apply row_after_wrap.
  - pose proof (cursor_line_wrap self line Hlf Hw Hline Hlen) as H.
    unfold cursor_line in H.
    by rewrite (cursor_row_after_wrap self line Hlf Hw Hline Hlen) in H.
Qed.

Lemma reflow_drops_only_whitespace_witness :
  let line := of_string "aaaaaaaaaa bbbbbbbbbb cccccccccc dddddddddd eeeeeeeeee ffffffffff gggggggggg  hhhhhhhhhh" in
  let self := {| text := line; cursor_location := (0, 88); wrapping := false |} in
  exists first ws second,
    lines_of (check_and_wrap_current_line self) !! 0 = Some first
    ∧ lines_of (check_and_wrap_current_line self) !! 1 = Some second
    ∧ line = first ++ ws ++ second
    ∧ Forall (fun c => py_isspace c = true) ws.
Proof.
  intros line self.
  apply (reflow_drops_only_whitespace self line);
    [reflexivity|reflexivity|reflexivity|vm_compute; lia].
Defined.

End EditorMore.

Section EditorShape.

Import NoteEditor.

Local Open Scope nat_scope.

Implicit Types (self : NoteEditor.t) (s line : str) (lines : list str).

(** In a document whose only line boundary is LF, a cursor inside its
    line stays inside the document: after the cut its column is at most
    the length of the line it is moved to. *)
Theorem reflow_cursor_in_bounds self line
    (Hlf : lf_only (text self) = true)
    (Hw : wrapping self = false)
    (Hline : cursor_line self = Some line)
    (Hlen : MAX_LINE_LENGTH < length line)
    (Hcol : (cursor_location self).2 <= length line) :
  exists line',
    cursor_line (check_and_wrap_current_line self) = Some line'
    ∧ (cursor_location (check_and_wrap_current_line self)).2 <= length line'.
Proof.
  exists (second_part line). split; [by apply cursor_line_wrap|].
  rewrite (check_wrap self line Hlf Hw Hline Hlen). cbn [cursor_location snd].
  unfold new_cursor_col, spaces_stripped.
  pose proof (wrap_point_bounds line) as Hb.
  rewrite length_drop. unfold MAX_LINE_LENGTH in *.
  destruct (Z.ltb_spec (Z.of_nat (length (first_part line)))
              (Z.of_nat (cursor_location self).2)); lia.
Qed.

Lemma reflow_cursor_in_bounds_witness :
  let line := replicate 50 97%N ++ [SPACE; SPACE] ++ replicate 40 98%N in
  let self := {| text := line; cursor_location := (0, 92); wrapping := false |} in
  exists line',
    cursor_line (check_and_wrap_current_line self) = Some line'
    ∧ (cursor_location (check_and_wrap_current_line self)).2 <= length line'.
Proof.
  intros line self.
  apply (reflow_cursor_in_bounds self line);
    [reflexivity|reflexivity|reflexivity|vm_compute; lia|vm_compute; lia].
Defined.

(** In a document whose only line boundary is LF, the reflow is local:
    one line more, and every line other than the cursor line is where it
    was, or one row further down. *)
Theorem reflow_is_local self line
    (Hlf : lf_only (text self) = true)
    (Hw : wrapping self = false)
    (Hline : cursor_line self = Some line)
    (Hlen : MAX_LINE_LENGTH < length line) :
  let r := (cursor_location self).1 in
  let lines' := lines_of (check_and_wrap_current_line self) in
  length lines' = length (lines_of self) + 1
  ∧ (forall j, j < r -> lines' !! j = lines_of self !! j)
  ∧ (forall j, r < j -> lines' !! (j + 1) = lines_of self !! j).
Proof.
  intros r lines'. unfold lines'.
  rewrite (lines_of_wrap self line Hlf Hw Hline Hlen). fold r.
  assert (Hr : r < length (lines_of self)) by (by eapply lookup_lt_Some).
  split_and!.
  - rewrite length_app, length_take_le by lia. simpl. rewrite length_drop. lia.
  - intros j Hj. rewrite lookup_app_l by (rewrite length_take_le; lia).
    by rewrite lookup_take_lt.
  - intros j Hj. rewrite lookup_app_r; rewrite length_take_le by lia; [|lia].
    replace (j + 1 - r) with (S (S (j - r - 1))) by lia. simpl.
    rewrite lookup_drop. f_equal. lia.
Qed.

Lemma reflow_is_local_witness :
  let self :=
    {| text := of_string "above" ++ [NEWLINE] ++ replicate 85 97%N
               ++ [NEWLINE] ++ of_string "below";
       cursor_location := (1, 85); wrapping := false |} in
  length (lines_of (check_and_wrap_current_line self)) = 4
  ∧ lines_of (check_and_wrap_current_line self) !! 0 = Some (of_string "above")
  ∧ lines_of (check_and_wrap_current_line self) !! 3 = Some (of_string "below").
Proof.
  intros self.
  destruct (reflow_is_local self (replicate 85 97%N)) as (H1 & H2 & H3);
    [reflexivity|reflexivity|reflexivity|vm_compute; lia|].
  split_and!.
  - exact H1.
  - rewrite H2; [reflexivity|vm_compute; lia].
  - etrans; [apply (H3 2); vm_compute; lia|reflexivity].
Defined.

(** In a document whose only line boundary is LF, whatever the cut, at a
    space or forced: the line left at the cursor
    row has at most 80 characters and does not end in whitespace; the
    line inserted after it does not start with whitespace and is shorter
    than the line that was cut. *)
Theorem reflow_shape self line
    (Hlf : lf_only (text self) = true)
    (Hw : wrapping self = false)
    (Hline : cursor_line self = Some line)
    (Hlen : MAX_LINE_LENGTH < length line) :
  let r := (cursor_location self).1 in
  exists first second,
    lines_of (check_and_wrap_current_line self) !! r = Some first
    ∧ lines_of (check_and_wrap_current_line self) !! (r + 1) = Some second
    ∧ length first <= MAX_LINE_LENGTH
    ∧ (forall c, last first = Some c -> py_isspace c = false)
    ∧ (forall c, head second = Some c -> py_isspace c = false)
    ∧ length second < length line.
Proof.
  intros r. exists (first_part line), (second_part line). split_and!.
  - by apply row_after_wrap.
  - pose proof (cursor_line_wrap self line Hlf Hw Hline Hlen) as H.
    unfold cursor_line in H.
    by rewrite (cursor_row_after_wrap self line Hlf Hw Hline Hlen) in H.
  - pose proof (first_part_length line). pose proof (wrap_point_bounds line). lia.
  - apply rstrip_last.
  - apply lstrip_head.
  - by apply second_part_shorter.
Qed.

Lemma reflow_shape_witness :
  let self :=
    {| text := replicate 170 97%N; cursor_location := (0, 170);
       wrapping := false |} in
  exists first second,
    lines_of (check_and_wrap_current_line self) !! 0 = Some first
    ∧ lines_of (check_and_wrap_current_line self) !! 1 = Some second
    ∧ length first <= MAX_LINE_LENGTH
    ∧ (forall c, last first = Some c -> py_isspace c = false)
    ∧ (forall c, head second = Some c -> py_isspace c = false)
    ∧ length second < 170.
Proof.
  intros self.
  apply (reflow_shape self (replicate 170 97%N));
    [reflexivity|reflexivity|reflexivity|vm_compute; lia].
Defined.

(** Repeated reflows settle: in a document whose only line boundary is
    LF, after as many of them as the cursor line has characters, one more
    changes nothing. *)
Theorem reflow_settles (n : nat) self
    (Hlf : lf_only (text self) = true)
    (Hn : cursor_line_length self <= n) :
  check_and_wrap_current_line (Nat.iter n check_and_wrap_current_line self)
  = Nat.iter n check_and_wrap_current_line self.
Proof.
  revert self Hlf Hn. induction n as [|n IH]; intros self Hlf Hn.
  - simpl. apply check_noop. unfold cursor_line_length in Hn.
    destruct (cursor_line self) as [line|]; [|auto].
    right. right. exists line. split; [done|]. unfold MAX_LINE_LENGTH. lia.
  - rewrite Nat.iter_succ_r.
    assert (Hfixed : check_and_wrap_current_line self = self ->
                     check_and_wrap_current_line
                       (Nat.iter n check_and_wrap_current_line
                          (check_and_wrap_current_line self))
                     = Nat.iter n check_and_wrap_current_line
                         (check_and_wrap_current_line self)).
    { intros Hfix. rewrite Hfix.
      assert (Hit : Nat.iter n check_and_wrap_current_line self = self).
      { clear -Hfix. induction n as [|n IHn]; [done|].
        simpl. by rewrite IHn. }
      by rewrite Hit. }
    destruct (wrapping self) eqn:Hw.
    { apply Hfixed, check_noop. auto. }
    destruct (cursor_line self) as [line|] eqn:Hline.
    2:{ apply Hfixed, check_noop. auto. }
    destruct (Nat.le_gt_cases (length line) MAX_LINE_LENGTH) as [Hs|Hl].
    { apply Hfixed, check_noop. eauto. }
    apply IH; [by apply check_lf_only|]. unfold cursor_line_length in *.
    rewrite (cursor_line_wrap self line Hlf Hw Hline Hl). rewrite Hline in Hn.
    pose proof (second_part_shorter line Hl). lia.
Qed.

Lemma reflow_settles_witness :
  let self :=
    {| text := replicate 170 97%N; cursor_location := (0, 170);
       wrapping := false |} in
  check_and_wrap_current_line (Nat.iter 170 check_and_wrap_current_line self)
  = Nat.iter 170 check_and_wrap_current_line self.
Proof.
  intros self. apply (reflow_settles 170 self); [reflexivity|vm_compute; lia].
Defined.

End EditorShape.

Section EditorEdges.

Import NoteEditor.

Local Open Scope nat_scope.

Implicit Types (self : NoteEditor.t) (s line : str) (lines : list str).

Lemma row_below_after_wrap self line :
  lf_only (text self) = true ->
  wrapping self = false ->
  cursor_line self = Some line ->
  MAX_LINE_LENGTH < length line ->
  lines_of (check_and_wrap_current_line self) !! ((cursor_location self).1 + 1)
  = Some (second_part line).
Proof.
  intros Hlf Hw Hline Hlen.
  pose proof (cursor_line_wrap self line Hlf Hw Hline Hlen) as H.
  unfold cursor_line in H.
  by rewrite (cursor_row_after_wrap self line Hlf Hw Hline Hlen) in H.
Qed.

(** In a document whose only line boundary is LF, a line without a
    space in its first 80 columns is cut after exactly
    80 characters, whatever follows, provided the 80th character is not
    whitespace of another kind. *)
Theorem forced_split_at_80 self line
    (Hlf : lf_only (text self) = true)
    (Hw : wrapping self = false)
    (Hline : cursor_line self = Some line)
    (Hlen : MAX_LINE_LENGTH < length line)
    (Hnospace : forall j, j < MAX_LINE_LENGTH -> line !! j ≠ Some SPACE)
    (Hlast : forall c, line !! 79 = Some c -> py_isspace c = false) :
  let r := (cursor_location self).1 in
  lines_of (check_and_wrap_current_line self) !! r
  = Some (take MAX_LINE_LENGTH line)
  ∧ length (take MAX_LINE_LENGTH line) = MAX_LINE_LENGTH
  ∧ lines_of (check_and_wrap_current_line self) !! (r + 1)
    = Some (lstrip (drop MAX_LINE_LENGTH line)).
Proof.
  intros r. subst r.
  assert (Hwp : wrap_point line = Z.of_nat MAX_LINE_LENGTH).
  { destruct (wrap_point_cases line) as [[_ ->]|(p & (Hp & Hsp & _) & _)];
      [done|]. by destruct (Hnospace p Hp). }
  assert (Hl80 : length (take MAX_LINE_LENGTH line) = MAX_LINE_LENGTH).
  { rewrite length_take_le; [done|lia]. }
  split_and!; [|done|].
  - rewrite (row_after_wrap self line Hlf Hw Hline Hlen). f_equal.
    unfold first_part. rewrite Hwp, Nat2Z.id. apply rstrip_fixed.
    intros c. rewrite last_lookup, Hl80. unfold MAX_LINE_LENGTH. simpl.
    rewrite lookup_take_lt by lia. apply Hlast.
  - rewrite (row_below_after_wrap self line Hlf Hw Hline Hlen).
    unfold second_part. by rewrite Hwp, Nat2Z.id.
Qed.

Lemma forced_split_at_80_witness :
  let line := replicate 100 120%N ++ [SPACE] ++ replicate 10 121%N in
  let self := {| text := line; cursor_location := (0, 111); wrapping := false |} in
  lines_of (check_and_wrap_current_line self)
  = [replicate 80 120%N; replicate 20 120%N ++ [SPACE] ++ replicate 10 121%N].
Proof.
  intros line self.
  destruct (forced_split_at_80 self line) as (H0 & _ & H1).
  - reflexivity.
  - reflexivity.
  - reflexivity.
  - vm_compute. lia.
  - intros j Hj. apply (no_space_in_range line 0 80); [reflexivity|lia|exact Hj].
  - intros c [= <-]. reflexivity.
  - apply list_eq. intros [|[|j]]; [exact H0|exact H1|reflexivity].
Defined.

(** In a document whose only line boundary is LF, a line whose only
    space in the first 80 columns is its first
    character is cut there: the cursor row is left empty and the whole
    text moves one line down, still as long as it was. *)
Theorem leading_space_leaves_empty_line self line
    (Hlf : lf_only (text self) = true)
    (Hw : wrapping self = false)
    (Hline : cursor_line self = Some line)
    (Hlen : MAX_LINE_LENGTH < length line)
    (Hfirst : line !! 0 = Some SPACE)
    (Hrest : forall j, 0 < j -> j < MAX_LINE_LENGTH -> line !! j ≠ Some SPACE) :
  let r := (cursor_location self).1 in
  lines_of (check_and_wrap_current_line self) !! r = Some []
  ∧ lines_of (check_and_wrap_current_line self) !! (r + 1) = Some (lstrip line).
Proof.
  intros r. subst r.
  assert (Hwp : wrap_point line = Z.of_nat 0).
  { apply wrap_point_at. split_and!; [unfold MAX_LINE_LENGTH; lia|done|done]. }
  split.
  - rewrite (row_after_wrap self line Hlf Hw Hline Hlen).
    unfold first_part. by rewrite Hwp.
  - rewrite (row_below_after_wrap self line Hlf Hw Hline Hlen).
    unfold second_part. by rewrite Hwp.
Qed.

Lemma leading_space_leaves_empty_line_witness :
  let line := [SPACE] ++ replicate 90 120%N in
  let self := {| text := line; cursor_location := (0, 91); wrapping := false |} in
  lines_of (check_and_wrap_current_line self) = [[]; replicate 90 120%N].
Proof.
  intros line self.
  destruct (leading_space_leaves_empty_line self line) as (H0 & H1).
  - reflexivity.
  - reflexivity.
  - reflexivity.
  - vm_compute. lia.
  - reflexivity.
  - intros j Hlo Hj. apply (no_space_in_range line 1 80); [reflexivity|lia|exact Hj].
  - apply list_eq. intros [|[|j]]; [exact H0|exact H1|reflexivity].
Defined.

End EditorEdges.

(** ** The note list *)

Section Preview.

Import NoteEditor NoteListItem.

Local Open Scope nat_scope.

(** The preview of a note is one line of at most 53 characters: its
    content up to 50 characters with every newline turned into a space,
    and three dots exactly when the content is longer than that. *)
Theorem preview_is_one_short_line (content : str) :
  (NEWLINE ∉ preview content)
  ∧ length (preview content)
    = (if 50 <? length content then 53 else length content)
  ∧ take (length (take 50 content)) (preview content)
    = replace NEWLINE SPACE (take 50 content).
Proof.
  unfold preview.
  assert (Hno : NEWLINE ∉ replace NEWLINE SPACE (take 50 content)).
  { unfold replace. intros H. apply list_elem_of_fmap in H as (c & Hc & _).
    destruct (N.eqb_spec c NEWLINE); [done|congruence]. }
  assert (Hlen : length (replace NEWLINE SPACE (take 50 content))
                 = length (take 50 content)).
  { unfold replace. apply length_fmap. }
  destruct (Nat.ltb_spec 50 (length content)) as [Hlong|Hshort].
  - split_and!.
    + rewrite elem_of_app. intros [H|H]; [done|]. by_computing_not H.
    + rewrite length_app, Hlen, length_take_le by lia. reflexivity.
    + by rewrite <- Hlen, take_app_length.
  - split_and!; [done| |].
    + rewrite Hlen. apply length_take_ge. lia.
    + rewrite <- Hlen. apply take_ge. lia.
Qed.

End Preview.

(** ** The application shell *)

Section Shell.

Import NoteData.

Implicit Types (self : NoteData.t) (app : NotesApp.t).

Lemma update_note_folders i ti c now self :
  folders (data (update_note i ti c now self).2) = folders (data self).
Proof.
  unfold update_note.
  by destruct (update_loop i ti c now (notes (data self))) as [[m ns']|].
Qed.

Lemma add_folder_folders_mono f g self :
  g ∈ folders (data self) -> g ∈ folders (data (add_folder f self).2).
Proof.
  intros Hg. unfold add_folder.
  destruct (negb (bool_decide (f = ""))
            && negb (bool_decide (f ∈ folders (data self)))); simpl; [|done].
  apply elem_of_app. by left.
Qed.

Lemma delete_folder_keeps_other f g self :
  g ≠ f -> g ∈ folders (data self) ->
  g ∈ folders (data (delete_folder f self).2).
Proof.
  intros Hne Hg. unfold delete_folder. case_bool_decide; [done|].
  case_bool_decide; simpl; [|done]. by apply elem_of_py_remove_ne.
Qed.

Lemma handle_current_folder_ok ev app app' :
  NotesApp.handle ev app = Some app' ->
  current_folder_ok app -> current_folder_ok app'.
Proof.
  unfold current_folder_ok.
  destruct ev as [i|n|n1 n2|f|ti c now|i confirmed|h]; simpl.
  - unfold NotesApp.on_folder_selected. destruct i as [i|]; [|by intros [= <-]].
    destruct (folders (data (NotesApp.note_data app)) !! i) as [f|] eqn:E;
      [|done].
    intros [= <-] _. simpl. right. by eapply list_elem_of_lookup_2.
  - by intros [= <-].
  - by intros [= <-].
  - intros [= <-]. unfold NotesApp.check_folder_name.
    destruct f as [name|]; [|done]. case_bool_decide; [done|]. simpl.
    intros [?|?]; [by left|right]. by apply add_folder_folders_mono.
  - intros [= <-]. unfold NotesApp.action_save_note.
    destruct (NotesApp.current_note_id app); [|done]. simpl.
    by rewrite update_note_folders.
  - unfold NotesApp.action_delete_folder. destruct i as [i|]; [|by intros [= <-]].
    destruct (folders (data (NotesApp.note_data app)) !! i) as [f|]; [|done].
    case_bool_decide; [by intros [= <-]|].
    destruct confirmed; [|by intros [= <-]].
    destruct (delete_folder f (NotesApp.note_data app)) as [deleted nd] eqn:E.
    assert (Hnd : nd = (delete_folder f (NotesApp.note_data app)).2)
      by (by rewrite E).
    destruct deleted.
    + case_bool_decide as Hcur; intros [= <-]; simpl; [by left|].
      intros [?|?]; [by left|right]. rewrite Hnd.
      by apply delete_folder_keeps_other.
    + intros [= <-]. simpl. intros [?|?]; [by left|right]. rewrite Hnd.
      unfold delete_folder in *. case_bool_decide; [done|].
      by case_bool_decide.
  - intros [= <-]. unfold NotesApp.action_delete_note.
    by destruct (NotesApp.current_note_id app), h.
Qed.

(** However the shell is driven, the folder on display is ["All Notes"]
    or a folder of the list, so [add_note] is always called with such a
    folder. *)
Theorem shell_current_folder_exists (notes_file : option Data)
    (evs : list NotesApp.Event) app
    (Hrun : NotesApp.session evs (NotesApp.init notes_file) = Some app) :
  current_folder_ok app.
Proof.
  assert (H : forall app0,
             current_folder_ok app0 ->
             NotesApp.session evs app0 = Some app -> current_folder_ok app).
  { clear Hrun. induction evs as [|ev evs IH]; intros app0 Hok; simpl.
    - by intros [= <-].
    - destruct (NotesApp.handle ev app0) as [app1|] eqn:E; [|done].
      apply IH. by eapply handle_current_folder_ok. }
  apply (H (NotesApp.init notes_file)); [by left|done].
Qed.

Lemma shell_current_folder_exists_witness :
  let evs := [NotesApp.FolderSelected (Some 2%nat);
              NotesApp.NewNote "t1" "t1";
              NotesApp.DeleteFolderConfirmed (Some 2%nat) true;
              NotesApp.NewNote "t2" "t2"] in
  exists app,
    NotesApp.session evs (NotesApp.init None) = Some app
    ∧ current_folder_ok app.
Proof.
  intros evs. eexists. split; [reflexivity|].
  apply (shell_current_folder_exists None evs). reflexivity.
Defined.

End Shell.

Section ShellFolders.

Import NoteData.

Implicit Types (self : NoteData.t) (app : NotesApp.t).

(** What a handler does to the store is nothing, or one store call. *)
Lemma handle_as_op ev app app' :
  NotesApp.handle ev app = Some app' ->
  NotesApp.note_data app' = NotesApp.note_data app
  ∨ exists op,
      NotesApp.note_data app' = run_op op (NotesApp.note_data app)
      ∧ match op with
        | AddNote _ _ f _ _ => f = NotesApp.current_folder app
        | DeleteFolder f =>
            exists i, ev = NotesApp.DeleteFolderConfirmed (Some i) true
                      ∧ folders (data (NotesApp.note_data app)) !! i = Some f
        | _ => True
        end.
Proof.
  destruct ev as [i|n|n1 n2|f|ti c now|i confirmed|h]; simpl.
  - unfold NotesApp.on_folder_selected. destruct i as [i|]; [|intros [= <-]; by left].
    destruct (folders (data (NotesApp.note_data app)) !! i); [|done].
    intros [= <-]. by left.
  - intros [= <-]. by left.
  - intros [= <-]. right.
    by exists (AddNote "Untitled Note" "" (NotesApp.current_folder app) n1 n2).
  - intros [= <-]. unfold NotesApp.check_folder_name.
    destruct f as [name|]; [|by left]. case_bool_decide; [by left|].
    right. by exists (AddFolder name).
  - intros [= <-]. unfold NotesApp.action_save_note.
    destruct (NotesApp.current_note_id app) as [i|]; [|by left].
    right. by exists (UpdateNote i (py_or ti "Untitled Note") c now).
  - unfold NotesApp.action_delete_folder.
    destruct i as [i|]; [|intros [= <-]; by left].
    destruct (folders (data (NotesApp.note_data app)) !! i) as [f|] eqn:Ef;
      [|done].
    case_bool_decide; [intros [= <-]; by left|].
    destruct confirmed; [|intros [= <-]; by left].
    destruct (delete_folder f (NotesApp.note_data app)) as [deleted nd] eqn:E.
    assert (Hnd : nd = run_op (DeleteFolder f) (NotesApp.note_data app))
      by (simpl; by rewrite E).
    intros Hsome. right. exists (DeleteFolder f).
    split; [|by exists i].
    destruct deleted; [case_bool_decide|]; by injection Hsome as <-.
  - intros [= <-]. unfold NotesApp.action_delete_note.
    destruct (NotesApp.current_note_id app) as [i|]; [right; by exists (DeleteNote i)|].
    destruct h as [i|]; [right; by exists (DeleteNote i)|by left].
Qed.

Lemma personal_stays op self :
  (forall f, op = DeleteFolder f -> f ≠ "Personal") ->
  "Personal" ∈ folders (data self) ->
  "Personal" ∈ folders (data (run_op op self)).
Proof.
  intros Hop Hin. destruct op as [ti c f n1 n2|i ti c now|i|f|f]; simpl.
  - done.
  - by rewrite update_note_folders.
  - done.
  - by apply add_folder_folders_mono.
  - apply delete_folder_keeps_other; [|done]. intros Heq. by apply (Hop f).
Qed.

(** On a fresh install, as long as the user never confirms the deletion
    of ["Personal"], every note's folder is ["All Notes"] or a folder of
    the list, whatever else is done through the shell. *)
Theorem shell_keeps_folders_valid (evs : list NotesApp.Event) app
    (Hspares : spares_personal evs (NotesApp.init None) = true)
    (Hrun : NotesApp.session evs (NotesApp.init None) = Some app) :
  folder_inv (NotesApp.note_data app)
  ∧ "Personal" ∈ folders (data (NotesApp.note_data app)).
Proof.
  assert (H : forall app0,
             folder_inv (NotesApp.note_data app0) ->
             "Personal" ∈ folders (data (NotesApp.note_data app0)) ->
             current_folder_ok app0 ->
             spares_personal evs app0 = true ->
             NotesApp.session evs app0 = Some app ->
             folder_inv (NotesApp.note_data app)
             ∧ "Personal" ∈ folders (data (NotesApp.note_data app))).
  { clear Hspares Hrun.
    induction evs as [|ev evs IH]; intros app0 Hinv Hp Hcur Hsp; simpl.
    - by intros [= <-].
    - destruct (NotesApp.handle ev app0) as [app1|] eqn:E; [|done].
      simpl in Hsp. rewrite E in Hsp. apply andb_true_iff in Hsp as [Hev Hsp].
      pose proof (handle_current_folder_ok _ _ _ E Hcur) as Hcur1.
      destruct (handle_as_op _ _ _ E) as [Hsame|(op & Hop & Hshape)].
      { apply (IH app1); try done; by rewrite Hsame. }
      assert (Hnot : forall f, op = DeleteFolder f -> f ≠ "Personal").
      { intros f -> ->. destruct Hshape as (i & -> & Hi).
        apply negb_true_iff, bool_decide_eq_false in Hev. done. }
      apply (IH app1); try done.
      + rewrite Hop. apply folder_inv_step; [done|].
        destruct op as [ti c f n1 n2| | | |f]; simpl; try done.
        * subst f. destruct Hcur as [->|Hin]; [done|].
          rewrite (bool_decide_eq_true_2 _ Hin). apply orb_true_r.
        * rewrite (bool_decide_eq_false_2 (f = "Personal")) by (by apply Hnot).
          rewrite (bool_decide_eq_true_2 _ Hp). apply orb_true_r.
      + rewrite Hop. by apply personal_stays. }
  apply (H (NotesApp.init None)); try done.
  - constructor.
  - by_computing.
  - by left.
Qed.

Lemma shell_keeps_folders_valid_witness :
  let evs := [NotesApp.FolderSelected (Some 2%nat);
              NotesApp.NewNote "t1" "t1";
              NotesApp.SaveNote "Groceries" "milk" "t2";
              NotesApp.DeleteFolderConfirmed (Some 2%nat) true;
              NotesApp.NewFolder (Some "Ideas");
              NotesApp.NewNote "t3" "t3"] in
  exists app,
    NotesApp.session evs (NotesApp.init None) = Some app
    ∧ folder_inv (NotesApp.note_data app)
    ∧ "Personal" ∈ folders (data (NotesApp.note_data app)).
Proof.
  intros evs. eexists. split; [reflexivity|].
  apply (shell_keeps_folders_valid evs); [vm_compute; reflexivity|reflexivity].
Defined.

(** A new note made from the shell is an empty ["Untitled Note"] in the
    folder on display; it comes last in that folder's view and is the
    note loaded in the editor. *)
Theorem new_note_is_shown_and_loaded (n1 n2 : string) app :
  let app' := NotesApp.action_new_note n1 n2 app in
  exists note,
    get_notes_by_folder (NotesApp.current_folder app') (NotesApp.note_data app')
    = get_notes_by_folder (NotesApp.current_folder app) (NotesApp.note_data app)
      ++ [note]
    ∧ NotesApp.current_note_id app' = Some (id note)
    ∧ title note = "Untitled Note" ∧ content note = ""
    ∧ folder note = NotesApp.current_folder app
    ∧ NotesApp.current_folder app' = NotesApp.current_folder app.
Proof.
  simpl.
  exists (add_note "Untitled Note" "" (NotesApp.current_folder app) n1 n2
            (NotesApp.note_data app)).1.
  split_and!; try reflexivity.
  unfold get_notes_by_folder. simpl. case_bool_decide; [done|].
  rewrite List.filter_app. simpl. by rewrite bool_decide_eq_true_2.
Qed.

End ShellFolders.
